(** * RSI bullish-divergence scanner: a shallow embedding of [rsi.py]

    The development follows the Python module function by function.
    - A [numpy.float64] (what pandas hands out for a cell of a price or
      oscillator column) is a [spec_float] at precision 53, compared and
      combined with the executable IEEE-754 operations of the standard
      library, so NaN, the infinities and signed zeros behave as they do
      at run time.
    - [Series.iloc], subscripts, [range], [all], [for] and [try] are
      written out together with the exceptions they can raise.
    - A [DataFrame] is a mutable object in a store and is passed around by
      reference: [add_rsi] writes a column into the very object that the
      caches hold.
    - The module globals [_cache_store] and [_cache_date], the memo tables
      of the two [lru_cache] decorators, the clock and the logs of the
      calls made to external collaborators are the fields of [state].
    - What lies outside the module (the market-data provider, the
      oscillator of the [ta] package, [round], the holiday table and the
      list of companies) is the interface [Externals].
    Output written with [print] is not modelled. *)

From Stdlib Require Import ZArith List Lia Bool.
From Stdlib Require Import Floats.SpecFloat.
From stdpp Require Import base tactics option list list_numbers sorting.
From stdpp Require Import strings pretty gmap.

Local Open Scope Z_scope.

(** ** Exceptions, and results of code that may raise *)

Inductive exn : Type :=
  | IndexError
  | KeyError (k : string)
  | ValueError (msg : string)
  | OverflowError
  | Dangling.  (* a reference that was never allocated: unreachable *)

Inductive res (A : Type) : Type :=
  | Ok (a : A)
  | Err (e : exn).
Arguments Ok {A} a.
Arguments Err {A} e.

#[global] Instance res_ret : MRet res := λ A a, Ok a.
#[global] Instance res_bind : MBind res := λ A B f m,
  match m with
  | Ok a => f a
  | Err e => Err e
  end.

#[global] Instance res_fmap : FMap res := λ A B f m,
  match m with
  | Ok a => Ok (f a)
  | Err e => Err e
  end.

(** ** binary64 *)

Module F64.
Definition prec : Z := 53.
Definition emax : Z := 1024.

Definition t : Type := spec_float.

Definition nan : t := S754_nan.
Definition of_Z (z : Z) : t := binary_normalize prec emax z 0 false.

(** [x < y] and [x > y]: false as soon as one side is NaN. *)
Definition lt (x y : t) : bool := SFltb x y.
Definition gt (x y : t) : bool := SFltb y x.
Definition eqb (x y : t) : bool := SFeqb x y.

(** Arithmetic of numpy scalars: a division by zero gives an infinity
    or NaN (with a warning), it does not raise. *)
Definition sub : t → t → t := SFsub prec emax.
Definition mul : t → t → t := SFmul prec emax.
Definition div : t → t → t := SFdiv prec emax.

Definition is_nan (x : t) : bool :=
  match x with S754_nan => true | _ => false end.
Definition is_inf (x : t) : bool :=
  match x with S754_infinity _ => true | _ => false end.
Definition is_zero (x : t) : bool :=
  match x with S754_zero _ => true | _ => false end.

(** Truth value of a float in a condition: only a zero is falsy (NaN
    and the infinities are truthy). *)
Definition truthy (x : t) : bool := negb (is_zero x).

(** [int(x)]: truncation towards zero; NaN and the infinities raise. *)
Definition to_int (x : t) : res Z :=
  match x with
  | S754_zero _ => Ok 0
  | S754_finite s m e =>
      let a := if 0 <=? e then Z.shiftl (Zpos m) e
               else Z.shiftr (Zpos m) (- e) in
      Ok (cond_Zopp s a)
  | S754_infinity _ => Err OverflowError
  | S754_nan => Err (ValueError "cannot convert float NaN to integer")
  end.

(** Round to the nearest integer, halves to even. *)
Definition rint (x : t) : t :=
  match x with
  | S754_finite s m e =>
      if 0 <=? e then x
      else
        let '(mrs, _) := shr (Build_shr_record (Zpos m) false false) e (- e) in
        let n := round_nearest_even (shr_m mrs) (loc_of_shr_record mrs) in
        binary_normalize prec emax (cond_Zopp s n) 0 s
  | _ => x
  end.

(** Rounding to [ndigits >= 0] decimals the way numpy does it for a
    scalar: scale, round to an integer, scale back. *)
Definition round_decimals (x : t) (ndigits : Z) : t :=
  let f := of_Z (10 ^ ndigits) in
  div (rint (mul x f)) f.
End F64.

Abbreviation float := F64.t.

(** ** Sequences: [len], subscripts, [range], [all], [for] *)

Definition len {A} (s : list A) : Z := Z.of_nat (length s).

(** Subscript with a Python integer: a negative index counts from the
    end, anything outside [-len, len) raises [IndexError].  [s.iloc[i]]
    on a series, [l[i]] on a list and [data.index[i]] all behave so. *)
Definition getitem {A} (s : list A) (i : Z) : res A :=
  let k := if i <? 0 then i + len s else i in
  if (k <? 0) || (len s <=? k) then Err IndexError
  else match s !! Z.to_nat k with
       | Some x => Ok x
       | None => Err IndexError
       end.

Definition iloc {A} (s : list A) (i : Z) : res A := getitem s i.

(** [range(a, b)] *)
Definition range (a b : Z) : list Z := seqZ a (b - a).

(** [enumerate(l)] *)
Definition enumerate {A} (l : list A) : list (Z * A) :=
  zip (range 0 (len l)) l.

(** [all(f(x) for x in l)]: stops at the first false element, so the
    elements after it are not evaluated. *)
Fixpoint all_ {A} (f : A → res bool) (l : list A) : res bool :=
  match l with
  | [] => Ok true
  | x :: l' => b ← f x; if b : bool then all_ f l' else Ok false
  end.

(** [for x in l: body], threading the variables that the body updates. *)
Fixpoint for_ {A S} (l : list A) (body : A → S → res S) (s : S) : res S :=
  match l with
  | [] => Ok s
  | x :: l' => s' ← body x s; for_ l' body s'
  end.

(** ** Data frames *)

(** A calendar day, as its proleptic Gregorian ordinal
    ([date.toordinal()]). *)
Definition day : Type := Z.

(** [date.weekday()]: Monday is 0, Sunday is 6. *)
Definition weekday (d : day) : Z := (d + 6) mod 7.

(** The bars of one symbol: the dates of the rows and the named columns
    ([Open], [High], [Low], [Close], [Volume], and [rsi] once it has been
    added), every cell a float. *)
Record DataFrame : Type := {
  index : list day;
  columns : gmap string (list float)
}.

(** [data[name]] *)
Definition col (data : DataFrame) (name : string) : res (list float) :=
  match columns data !! name with
  | Some s => Ok s
  | None => Err (KeyError name)
  end.

(** [data[name] = values] *)
Definition set_col (data : DataFrame) (name : string) (values : list float)
  : DataFrame :=
  {| index := index data; columns := <[name := values]> (columns data) |}.

(** [len(data)] and [data.empty] *)
Definition df_len (data : DataFrame) : Z := len (index data).
Definition df_empty (data : DataFrame) : bool :=
  bool_decide (index data = [] ∨ columns data = ∅).

(** Every column is as long as the index. *)
Definition aligned (data : DataFrame) : Prop :=
  ∀ name s, columns data !! name = Some s → len s = df_len data.

(** ** Values held by the result dictionaries *)

Inductive pyval : Type :=
  | PyNone
  | PyBool (b : bool)
  | PyInt (z : Z)
  | PyFloat (x : float)
  | PyStr (s : string)
  | PyDate (d : day).

(** ** Settings *)

Definition rsi_period : Z := 14.
Definition pivot_lookback : Z := 5.

(** ** External collaborators *)

Class Externals : Type := {
  (** [yf.Ticker(symbol).history(period='1y')], asked on a given day *)
  history : string → day → res DataFrame;
  (** [ta.momentum.RSIIndicator(close, window=period).rsi()] *)
  rsi_indicator : list float → Z → list float;
  (** [round(x, ndigits)] *)
  round : float → Z → float;
  (** [set(nse_holidays())] *)
  NSE_HOLIDAYS : gset day;
  (** [list(set(companies))] *)
  UNIQUE_COMPANIES : list string
}.

(** ** [find_pivot_lows] *)

Definition lower_than (series : list float) (i k : Z) : res bool :=
  x ← iloc series i; y ← iloc series k; Ok (F64.lt x y).

Definition pivot_test (series : list float) (left right i : Z) : res bool :=
  l ← all_ (λ j, lower_than series i (i - j)) (range 1 (left + 1));
  if l : bool
  then all_ (λ j, lower_than series i (i + j)) (range 1 (right + 1))
  else Ok false.

Definition find_pivot_lows (series : list float) (left right : Z)
  : res (list Z) :=
  for_ (range left (len series - right))
       (λ i pivots,
          b ← pivot_test series left right i;
          Ok (if b : bool then pivots ++ [i] else pivots))
       [].

(** ** [check_bullish_divergence] *)

Definition check_bullish_divergence (data : DataFrame) (pivot_lows : list Z)
  : res (list Z) :=
  for_ (range 1 (len pivot_lows))
       (λ i divergences,
          curr ← getitem pivot_lows i;
          prev ← getitem pivot_lows (i - 1);
          rsi_curr ← (s ← col data "rsi"; iloc s curr);
          rsi_prev ← (s ← col data "rsi"; iloc s prev);
          let rsi_hl := F64.gt rsi_curr rsi_prev in
          low_curr ← (s ← col data "Low"; iloc s curr);
          low_prev ← (s ← col data "Low"; iloc s prev);
          let price_ll := F64.lt low_curr low_prev in
          Ok (if rsi_hl && price_ll then divergences ++ [curr]
              else divergences))
       [].


(** ** Program state *)

Abbreviation ref := nat.

Record state : Type := {
  (** [datetime.now().date()] *)
  clock : day;
  (** the [DataFrame] objects that exist, by reference *)
  heap : list DataFrame;
  _cache_store : gmap string ref;
  _cache_date : option day;
  (** memo table of [@lru_cache] on [download_data] *)
  download_data_memo : gmap string ref;
  (** memo table of [@lru_cache] on [get_preprocessed_data] *)
  get_preprocessed_data_memo : gmap string (ref * list Z);
  (** symbols handed to the market-data provider, oldest first *)
  fetch_log : list string;
  (** frames handed to the oscillator, oldest first *)
  rsi_log : list ref
}.

Definition initial_state (today : day) : state :=
  {| clock := today; heap := []; _cache_store := ∅; _cache_date := None;
     download_data_memo := ∅; get_preprocessed_data_memo := ∅;
     fetch_log := []; rsi_log := [] |}.

Definition set_clock (d : day) (st : state) : state :=
  {| clock := d; heap := heap st; _cache_store := _cache_store st;
     _cache_date := _cache_date st;
     download_data_memo := download_data_memo st;
     get_preprocessed_data_memo := get_preprocessed_data_memo st;
     fetch_log := fetch_log st; rsi_log := rsi_log st |}.

Definition set_heap (h : list DataFrame) (st : state) : state :=
  {| clock := clock st; heap := h; _cache_store := _cache_store st;
     _cache_date := _cache_date st;
     download_data_memo := download_data_memo st;
     get_preprocessed_data_memo := get_preprocessed_data_memo st;
     fetch_log := fetch_log st; rsi_log := rsi_log st |}.

Definition set_cache (store : gmap string ref) (d : option day) (st : state)
  : state :=
  {| clock := clock st; heap := heap st; _cache_store := store;
     _cache_date := d;
     download_data_memo := download_data_memo st;
     get_preprocessed_data_memo := get_preprocessed_data_memo st;
     fetch_log := fetch_log st; rsi_log := rsi_log st |}.

Definition set_download_data_memo (m : gmap string ref) (st : state) : state :=
  {| clock := clock st; heap := heap st; _cache_store := _cache_store st;
     _cache_date := _cache_date st;
     download_data_memo := m;
     get_preprocessed_data_memo := get_preprocessed_data_memo st;
     fetch_log := fetch_log st; rsi_log := rsi_log st |}.

Definition set_get_preprocessed_data_memo (m : gmap string (ref * list Z))
    (st : state) : state :=
  {| clock := clock st; heap := heap st; _cache_store := _cache_store st;
     _cache_date := _cache_date st;
     download_data_memo := download_data_memo st;
     get_preprocessed_data_memo := m;
     fetch_log := fetch_log st; rsi_log := rsi_log st |}.

Definition log_fetch (symbol : string) (st : state) : state :=
  {| clock := clock st; heap := heap st; _cache_store := _cache_store st;
     _cache_date := _cache_date st;
     download_data_memo := download_data_memo st;
     get_preprocessed_data_memo := get_preprocessed_data_memo st;
     fetch_log := fetch_log st ++ [symbol]; rsi_log := rsi_log st |}.

Definition log_rsi (data : ref) (st : state) : state :=
  {| clock := clock st; heap := heap st; _cache_store := _cache_store st;
     _cache_date := _cache_date st;
     download_data_memo := download_data_memo st;
     get_preprocessed_data_memo := get_preprocessed_data_memo st;
     fetch_log := fetch_log st; rsi_log := rsi_log st ++ [data] |}.

(** ** Computations: state and exceptions

    [M Σ A] is a computation over a store [Σ] that returns an [A] or
    raises; the store as it stands when the exception is raised is kept.
    [Σ] is [state] for the module-level functions, and [list B * state]
    inside a function that fills a local list while it runs. *)

Definition M (Σ A : Type) : Type := Σ → res A * Σ.

#[global] Instance M_ret {Σ} : MRet (M Σ) := λ A a st, (Ok a, st).
#[global] Instance M_bind {Σ} : MBind (M Σ) := λ A B f m st,
  match m st with
  | (Ok a, st') => f a st'
  | (Err e, st') => (Err e, st')
  end.

Definition raise {Σ A} (e : exn) : M Σ A := λ st, (Err e, st).
Definition lift {Σ A} (r : res A) : M Σ A := λ st, (r, st).
Definition gets {Σ A} (f : Σ → A) : M Σ A := λ st, (Ok (f st), st).
Definition modify {Σ} (f : Σ → Σ) : M Σ unit := λ st, (Ok tt, f st).

(** [try: body / except Exception as e: handler] *)
Definition try_except {Σ A} (body : M Σ A) (handler : exn → M Σ A) : M Σ A :=
  λ st, match body st with
        | (Ok a, st') => (Ok a, st')
        | (Err e, st') => handler e st'
        end.

(** [for x in l: body] *)
Fixpoint for_M {Σ A} (l : list A) (body : A → M Σ unit) : M Σ unit :=
  match l with
  | [] => mret tt
  | x :: l' => body x;; for_M l' body
  end.

(** A function body with a local list [results]: code that only touches
    the globals runs [globally]; [append] is [results.append(x)];
    [with_results] runs the body from [results = []] and drops the local
    when the function is left. *)
Definition globally {L A} (m : M state A) : M (L * state) A :=
  λ '(l, st), let '(r, st') := m st in (r, (l, st')).
Definition append {B} (x : B) : M (list B * state) unit :=
  modify (λ '(l, st), (l ++ [x], st)).
Definition results {B} : M (list B * state) (list B) := gets fst.
Definition with_results {B A} (m : M (list B * state) A) : M state A :=
  λ st, let '(r, (_, st')) := m ([], st) in (r, st').

(** Objects *)
Definition alloc (d : DataFrame) : M state ref :=
  λ st, (Ok (length (heap st)), set_heap (heap st ++ [d]) st).
Definition deref (r : ref) : M state DataFrame :=
  λ st, match heap st !! r with
        | Some d => (Ok d, st)
        | None => (Err Dangling, st)
        end.
Definition assign (r : ref) (d : DataFrame) : M state unit :=
  modify (λ st, set_heap (<[r := d]> (heap st)) st).

(** [@lru_cache(maxsize=None)] on a function of one string argument: a
    remembered result is returned without running the body; a result is
    remembered when the body returns, not when it raises; nothing is ever
    evicted. *)
Definition lru_cache {A} (memo : state → gmap string A)
    (set_memo : gmap string A → state → state)
    (f : string → M state A) (key : string) : M state A :=
  cached ← gets memo;
  match cached !! key with
  | Some v => mret v
  | None =>
      v ← f key;
      modify (λ st, set_memo (<[key := v]> (memo st)) st);;
      mret v
  end.

Section program.
Context {world : Externals}.

(** ** [is_nse_trading_day] *)
Definition is_nse_trading_day (check_date : option day) : M state bool :=
  check_date ← match check_date with
                | None => gets clock
                | Some d => mret d
                end;
  if 5 <=? weekday check_date then mret false
  else mret (bool_decide (check_date ∉ NSE_HOLIDAYS)).

(** ** [download_data] *)

(** [yf.Ticker(symbol).history(period='1y')]: a call to the provider,
    which hands back a new frame or raises. *)
Definition fetch (symbol : string) : M state ref :=
  today ← gets clock;
  modify (log_fetch symbol);;
  d ← lift (history symbol today);
  alloc d.

Definition download_data_body (symbol : string) : M state ref :=
  today ← gets clock;
  cache_date ← gets _cache_date;
  (* Reset cache daily *)
  (if bool_decide (cache_date ≠ Some today)
   then modify (set_cache ∅ (Some today))
   else mret tt);;
  store ← gets _cache_store;
  match store !! symbol with
  | Some data => mret data
  | None =>
      data ← fetch symbol;
      d ← deref data;
      if df_empty d then raise (ValueError "No data found")
      else
        modify (λ st, set_cache (<[symbol := data]> (_cache_store st))
                                (_cache_date st) st);;
        mret data
  end.

Definition download_data : string → M state ref :=
  lru_cache download_data_memo set_download_data_memo download_data_body.

(** ** [add_rsi]: writes the column into the frame it is given *)
Definition add_rsi (data : ref) (period : Z) : M state ref :=
  d ← deref data;
  close ← lift (col d "Close");
  modify (log_rsi data);;
  assign data (set_col d "rsi" (rsi_indicator close period));;
  mret data.

(** ** [get_preprocessed_data] *)

(** The two lines that [get_preprocessed_data] and
    [scan_for_today_divergences] share: the pivot lows of the oscillator
    column, then the divergences among them. *)
Definition pipeline (data : ref) : M state (list Z) :=
  d ← deref data;
  rsi ← lift (col d "rsi");
  pivot_lows ← lift (find_pivot_lows rsi pivot_lookback pivot_lookback);
  lift (check_bullish_divergence d pivot_lows).

Definition get_preprocessed_data_body (symbol : string)
  : M state (ref * list Z) :=
  data ← download_data symbol;
  data ← add_rsi data rsi_period;
  divergences ← pipeline data;
  mret (data, divergences).

Definition get_preprocessed_data : string → M state (ref * list Z) :=
  lru_cache get_preprocessed_data_memo set_get_preprocessed_data_memo
            get_preprocessed_data_body.

(** ** [scan_for_today_divergences] *)

(** [is_today(index_date)] *)
Definition is_today (index_date : day) : M state bool :=
  today ← gets clock; mret (bool_decide (index_date = today)).

(** The dictionary appended for a divergence dated today. *)
Definition today_result (d : DataFrame) (symbol : string) (idx : Z)
    (index_date : day) : res (gmap string pyval) :=
  rsi_val ← (s ← col d "rsi"; iloc s idx);
  close ← (s ← col d "Close"; iloc s idx);
  low ← (s ← col d "Low"; iloc s idx);
  high ← (s ← col d "High"; iloc s idx);
  volume ← (s ← col d "Volume"; x ← iloc s idx; F64.to_int x);
  Ok (list_to_map
        [("symbol", PyStr symbol); ("date", PyDate index_date);
         ("rsi", PyFloat (round rsi_val 2));
         ("close", PyFloat (round close 2));
         ("low", PyFloat (round low 2));
         ("high", PyFloat (round high 2));
         ("volume", PyInt volume)]).

(** The [try] statement run for one symbol. *)
Definition scan_symbol_today (symbol : string)
  : M (list (gmap string pyval) * state) unit :=
  try_except
    (data ← globally (download_data symbol);
     data ← globally (add_rsi data rsi_period);
     divergences ← globally (pipeline data);
     for_M divergences (λ idx,
       d ← globally (deref data);
       index_date ← lift (getitem (index d) idx);
       today ← globally (is_today index_date);
       if today : bool
       then result ← lift (today_result d symbol idx index_date);
            append result
       else mret tt))
    (λ e, mret tt).

Definition scan_for_today_divergences : M state (list (gmap string pyval)) :=
  open ← is_nse_trading_day None;
  if negb open then mret []
  else with_results (for_M UNIQUE_COMPANIES scan_symbol_today;; results).

(** ** [get_bullish_divergence_results] *)

(** The key [f"Day+{j} Return (%)"]. *)
Definition day_key (j : Z) : string :=
  "Day+" +:+ pretty j +:+ " Return (%)".

(** The forward returns of one divergence: the loop over [j] updates the
    dictionary [future_returns] and the counter [available_days]. *)
Definition forward_returns (d : DataFrame) (idx : Z) (base_price : float)
  : res (gmap string pyval * Z) :=
  for_ (range 1 6)
       (λ j '(future_returns, available_days),
          if idx + j <? df_len d
          then
            future_close ← (s ← col d "Close"; iloc s (idx + j));
            let ret :=
              F64.mul (F64.div (F64.sub future_close base_price) base_price)
                      (F64.of_Z 100) in
            Ok (<[day_key j := PyFloat (round ret 2)]> future_returns, j)
          else
            Ok (<[day_key j := PyNone]> future_returns, available_days))
       (∅, 0).

(** The record built for a divergence at [idx] whose date is the target
    date. *)
Definition projection (d : DataFrame) (symbol : string) (idx : Z)
    (use_next_open is_target_today : bool) : res (gmap string pyval) :=
  rsi_val ← (s ← col d "rsi"; iloc s idx);
  close_today ← (s ← col d "Close"; iloc s idx);
  close_prev ← (if 0 <? idx
                then x ← (s ← col d "Close"; iloc s (idx - 1)); Ok (Some x)
                else Ok None);
  open_next_day ← (if idx + 1 <? df_len d
                   then x ← (s ← col d "Open"; iloc s (idx + 1)); Ok (Some x)
                   else Ok None);
  let '(base_price, price_basis) :=
    match use_next_open, open_next_day with
    | true, Some o => (o, "Open Next Day")
    | _, _ => (close_today, "Close")
    end in
  '(future_returns, available_days) ← forward_returns d idx base_price;
  Ok (future_returns ∪
      list_to_map
        [("Symbol", PyStr symbol);
         ("Prev Close",
          match close_prev with
          | Some c => if F64.truthy c then PyFloat (round c 2) else PyNone
          | None => PyNone
          end);
         ("Divergence Close", PyFloat (round close_today 2));
         ("Open Next Day",
          match open_next_day with
          | Some o => PyFloat (round o 2)
          | None => PyNone
          end);
         ("RSI", PyFloat (round rsi_val 2));
         ("Used Price", PyStr price_basis);
         ("Available Future Days", PyInt available_days);
         ("Is Today's Signal", PyBool is_target_today)]).

(** The [try] statement run for one symbol. *)
Definition scan_symbol_date (target_date : day) (use_next_open : bool)
    (is_target_today : bool) (symbol : string)
  : M (list (gmap string pyval) * state) unit :=
  try_except
    ('(data, divergences) ← globally (get_preprocessed_data symbol);
     for_M divergences (λ idx,
       d ← globally (deref data);
       index_date ← lift (getitem (index d) idx);
       if bool_decide (index_date = target_date)
       then result ← lift (projection d symbol idx use_next_open
                                      is_target_today);
            append result
       else mret tt))
    (λ e, mret tt).

(** One turn of the loop over the symbols: the [try] statement, then the
    progress callback. *)
Definition scan_step_date (target_date : day) (use_next_open : bool)
    (is_target_today : bool)
    (progress_callback : option (Z → Z → string → M state unit))
    (total : Z) (item : Z * string)
  : M (list (gmap string pyval) * state) unit :=
  let '(i, symbol) := item in
  scan_symbol_date target_date use_next_open is_target_today symbol;;
  match progress_callback with
  | Some callback => globally (callback (i + 1) total symbol)
  | None => mret tt
  end.

Definition get_bullish_divergence_results (target_date : day)
    (symbols : option (list string))
    (progress_callback : option (Z → Z → string → M state unit))
    (use_next_open : bool) : M state (list (gmap string pyval)) :=
  with_results
    (let symbols := match symbols with
                    | Some (s :: l) => s :: l
                    | _ => UNIQUE_COMPANIES
                    end in
     let total := len symbols in
     today ← globally (gets clock);
     let is_target_today := bool_decide (target_date = today) in
     for_M (enumerate symbols)
           (scan_step_date target_date use_next_open is_target_today
                           progress_callback total);;
     results).
End program.


(** ** Properties of series that the statements below speak about *)

(** The values at [i] and at [k] both exist and the first is strictly
    less than (strictly greater than, equal to) the second. *)
Definition strictly_below (series : list float) (i k : Z) : Prop :=
  ∃ x y, series !! Z.to_nat i = Some x ∧ series !! Z.to_nat k = Some y
         ∧ F64.lt x y = true.

Definition strictly_above (series : list float) (i k : Z) : Prop :=
  ∃ x y, series !! Z.to_nat i = Some x ∧ series !! Z.to_nat k = Some y
         ∧ F64.gt x y = true.

Definition tie (series : list float) (i k : Z) : Prop :=
  ∃ x y, series !! Z.to_nat i = Some x ∧ series !! Z.to_nat k = Some y
         ∧ F64.eqb x y = true.

(** The value at [k] exists and is not NaN. *)
Definition defined_at (series : list float) (k : Z) : Prop :=
  ∃ x, series !! Z.to_nat k = Some x ∧ F64.is_nan x = false.

(** Neither the value at [i] nor any value of its comparison window is
    NaN. *)
Definition nan_free_window (series : list float) (left right i : Z) : Prop :=
  defined_at series i
  ∧ (∀ j, 1 ≤ j ≤ left → defined_at series (i - j))
  ∧ (∀ j, 1 ≤ j ≤ right → defined_at series (i + j)).

Definition belowb (series : list float) (i k : Z) : bool :=
  match series !! Z.to_nat i, series !! Z.to_nat k with
  | Some x, Some y => F64.lt x y
  | _, _ => false
  end.

Definition pivot_lowb (series : list float) (left right i : Z) : bool :=
  forallb (λ j, belowb series i (i - j)) (range 1 (left + 1))
  && forallb (λ j, belowb series i (i + j)) (range 1 (right + 1)).

(** What the divergence loop appends at position [i] of the pivot list. *)
Definition flags_at (osc low : list float) (pivot_lows : list Z) (i : Z)
  : list Z :=
  match pivot_lows !! Z.to_nat i, pivot_lows !! Z.to_nat (i - 1) with
  | Some curr, Some prev =>
      if belowb osc prev curr && belowb low curr prev then [curr] else []
  | _, _ => []
  end.

(** What the loop of [forward_returns] does at [j], as a function of the
    values it reads: the slot it writes and the counter it leaves. *)
Definition return_slot {world : Externals} (d : DataFrame) (close : list float)
    (idx : Z) (base_price : float) (j : Z) : pyval :=
  if decide (idx + j < df_len d)
  then match close !! Z.to_nat (idx + j) with
       | Some future_close =>
           PyFloat (round (F64.mul (F64.div (F64.sub future_close base_price)
                                            base_price)
                                   (F64.of_Z 100)) 2)
       | None => PyNone
       end
  else PyNone.

Definition returns_step {world : Externals} (d : DataFrame) (close : list float)
    (idx : Z) (base_price : float) (acc : gmap string pyval * Z) (j : Z)
  : gmap string pyval * Z :=
  (<[day_key j := return_slot d close idx base_price j]> acc.1,
   if decide (idx + j < df_len d) then j else acc.2).

(** The previous close and the next open as [projection] reads them, and
    the base price it chooses. *)
Definition prev_close_read (close : list float) (idx : Z) : option float :=
  if 0 <? idx then close !! Z.to_nat (idx - 1) else None.

Definition next_open_read (d : DataFrame) (open : list float) (idx : Z)
  : option float :=
  if idx + 1 <? df_len d then open !! Z.to_nat (idx + 1) else None.

Definition base_price_of (d : DataFrame) (open : list float) (idx : Z)
    (use_next_open : bool) (close_today : float) : float :=
  match use_next_open, next_open_read d open idx with
  | true, Some o => o
  | _, _ => close_today
  end.

(** ** Runs of the program and what they keep *)

(** The calls a client of the module makes.  A run is a sequence of
    calls; the clock does not move during a run, so a run stays within
    one calendar day. *)
Inductive call : Type :=
  | Call_download_data (symbol : string)
  | Call_add_rsi (data : ref)
  | Call_get_preprocessed_data (symbol : string)
  | Call_scan_for_today_divergences
  | Call_get_bullish_divergence_results (target_date : day)
      (symbols : option (list string)) (use_next_open : bool).

Definition run_call {world : Externals} (c : call) (st : state) : state :=
  match c with
  | Call_download_data symbol => (download_data symbol st).2
  | Call_add_rsi data => (add_rsi data rsi_period st).2
  | Call_get_preprocessed_data symbol => (get_preprocessed_data symbol st).2
  | Call_scan_for_today_divergences => (scan_for_today_divergences st).2
  | Call_get_bullish_divergence_results target_date symbols use_next_open =>
      (get_bullish_divergence_results target_date symbols None use_next_open
         st).2
  end.

Definition run_calls {world : Externals} (cs : list call) (st : state)
  : state :=
  foldl (λ st c, run_call c st) st cs.

(** The calls made to the provider for [symbol] so far. *)
Definition fetches (symbol : string) (st : state) : list string :=
  filter (λ s, s = symbol) (fetch_log st).

(** The oscillator column of [d] is the oscillator of its close column. *)
Definition rsi_current {world : Externals} (d : DataFrame) : Prop :=
  ∃ close, columns d !! "Close" = Some close
           ∧ columns d !! "rsi" = Some (rsi_indicator close rsi_period).

(** Every frame of [h] is still there in [h'] with the same index and the
    same columns, the oscillator column apart; and a frame whose
    oscillator column was current is unchanged altogether. *)
Definition bars_kept {world : Externals} (h h' : list DataFrame) : Prop :=
  ∀ r d, h !! r = Some d →
    ∃ d', h' !! r = Some d'
          ∧ index d' = index d
          ∧ (∀ name, name ≠ "rsi" → columns d' !! name = columns d !! name)
          ∧ (rsi_current d → d' = d).

(** What every step of the program keeps. *)
Record frame {world : Externals} (st st' : state) : Prop := {
  frame_clock : clock st' = clock st;
  frame_heap : bars_kept (heap st) (heap st');
  frame_download : download_data_memo st ⊆ download_data_memo st';
  frame_preprocessed :
    get_preprocessed_data_memo st ⊆ get_preprocessed_data_memo st'
}.

(** A step that calls the provider for no symbol but [t]. *)
Definition quiet {world : Externals} (t : string) (st st' : state) : Prop :=
  frame st st' ∧ ∀ s, s ≠ t → fetches s st' = fetches s st.

(** A step that calls the provider for no symbol whose download is
    memoized. *)
Definition evolves {world : Externals} (st st' : state) : Prop :=
  frame st st'
  ∧ ∀ s, is_Some (download_data_memo st !! s) → fetches s st' = fetches s st.

(** A symbol with a memoized pipeline result has a memoized download. *)
Definition memo_consistent (st : state) : Prop :=
  ∀ s, is_Some (get_preprocessed_data_memo st !! s) →
       is_Some (download_data_memo st !! s).

(** [m] relates the store it starts from to the store it leaves, whether
    it returns or raises. *)
Definition preserves {Σ A} (R : relation Σ) (m : M Σ A) : Prop :=
  ∀ st, R st (m st).2.

Definition on_globals {L} (R : relation state) : relation (L * state) :=
  λ x y, R x.2 y.2.

(** [m] never raises. *)
Definition never_raises {Σ A} (m : M Σ A) : Prop :=
  ∀ st, ∃ a, (m st).1 = Ok a.

(** [m] treats the local list as a log: what it does is what it does
    from an empty list, with the items it appends added to the list it
    was given. *)
Definition appends {B A} (m : M (list B * state) A) : Prop :=
  ∀ acc st,
    m (acc, st)
    = ((m ([], st)).1, (acc ++ (m ([], st)).2.1, (m ([], st)).2.2)).

(** The items a loop leaves when started from an empty list, and the
    state it leaves. *)
Definition items_of {B A} (m : M (list B * state) A) (st : state) : list B :=
  (m ([], st)).2.1.
Definition state_of {B A} (m : M (list B * state) A) (st : state) : state :=
  (m ([], st)).2.2.

(** The state after the progress callback, and a callback that never
    raises. *)
Definition after_callback
    (progress_callback : option (Z → Z → string → M state unit))
    (i total : Z) (symbol : string) (st : state) : state :=
  match progress_callback with
  | Some callback => (callback (i + 1) total symbol st).2
  | None => st
  end.

Definition callback_never_raises
    (progress_callback : option (Z → Z → string → M state unit)) : Prop :=
  ∀ callback, progress_callback = Some callback →
    ∀ a b c, never_raises (callback a b c).

(** The list of symbols that [get_bullish_divergence_results] scans. *)
Definition chosen_symbols {world : Externals} (symbols : option (list string))
  : list string :=
  match symbols with
  | Some (s :: l) => s :: l
  | _ => UNIQUE_COMPANIES
  end.

(** ** Sample data *)

(** A frame with integer-valued cells. *)
Definition bars (dates : list day) (open high low close volume : list Z)
  : DataFrame :=
  {| index := dates;
     columns := list_to_map
       [("Open", F64.of_Z <$> open); ("High", F64.of_Z <$> high);
        ("Low", F64.of_Z <$> low); ("Close", F64.of_Z <$> close);
        ("Volume", F64.of_Z <$> volume)] |}.

Definition no_bars : DataFrame := {| index := []; columns := ∅ |}.

(** A provider that has two bars for every symbol but ["NONE.NS"], for
    which it has none; the prices it reports depend on the day it is
    asked.  The oscillator is the one of a history shorter than its
    window (nothing but NaN), which is all these frames need. *)
Definition sample_world : Externals := {|
  history symbol today :=
    if bool_decide (symbol = "NONE.NS") then Ok no_bars
    else Ok (bars [today - 1; today]
                  [today; today + 1] [today + 2; today + 3]
                  [today - 2; today - 1] [today; today + 2] [1000; 2000]);
  rsi_indicator close period := (λ _, F64.nan) <$> close;
  round := F64.round_decimals;
  NSE_HOLIDAYS := ∅;
  UNIQUE_COMPANIES := ["AAA.NS"; "NONE.NS"; "BBB.NS"]
|}.

(** Seventeen bars with the oscillator column already in place: pivot
    lows at 5 and 11, a higher oscillator low and a lower price low at
    11, a close of 0 on the bar before it and an open of 0 on the bar
    after it. *)
Definition engineered_rsi : list float :=
  F64.of_Z <$>
    [60; 59; 58; 57; 56; 30; 56; 57; 58; 59; 58; 40; 58; 59; 60; 61; 62].

Definition engineered_bars : DataFrame :=
  bars (seqZ 738997 17)
       [50; 50; 50; 50; 50; 47; 50; 50; 50; 50; 50; 46; 0; 50; 50; 50; 50]
       [53; 53; 53; 53; 53; 48; 53; 53; 53; 53; 53; 47; 53; 53; 53; 53; 53]
       [45; 45; 45; 45; 45; 44; 45; 45; 45; 45; 45; 43; 45; 45; 45; 45; 45]
       [52; 51; 50; 49; 48; 46; 47; 48; 49; 50; 0; 45; 46; 47; 48; 49; 50]
       [10; 10; 10; 10; 10; 10; 10; 10; 10; 10; 10; 10; 10; 10; 10; 10; 10].

Definition engineered : DataFrame :=
  set_col engineered_bars "rsi" engineered_rsi.

(** A test double for whole scans: the provider hands out the seventeen
    bars above for every symbol but ["NONE.NS"], and the oscillator is
    the column laid out by hand, so that the bar of index 11, dated
    739008, is a divergence. *)
Definition engineered_world : Externals := {|
  history symbol today :=
    if bool_decide (symbol = "NONE.NS") then Ok no_bars
    else Ok engineered_bars;
  rsi_indicator close period := engineered_rsi;
  round := F64.round_decimals;
  NSE_HOLIDAYS := ∅;
  UNIQUE_COMPANIES := ["AAA.NS"; "NONE.NS"; "BBB.NS"]
|}.

(** ** Proof automation *)

(** Apply a lemma about [preserves] and find the preorder it asks for. *)
Tactic Notation "keep" uconstr(lem) := apply lem; try (by apply _).


(** ** [get_tradingview_link] *)

(** The character ['.'] (code 46). *)
Definition dot : Ascii.ascii :=
  Ascii.Ascii false true true true false true false false.

(** [s.endswith(suffix)] *)
Fixpoint endswith (s suffix : string) : bool :=
  bool_decide (s = suffix)
  || match s with
     | EmptyString => false
     | String _ s' => endswith s' suffix
     end.

(** [s.split('.')[0]]: the text before the first dot, all of [s] when it
    has none. *)
Fixpoint before_first_dot (s : string) : string :=
  match s with
  | EmptyString => EmptyString
  | String c s' =>
      if Ascii.eqb c dot then EmptyString else String c (before_first_dot s')
  end.

Definition get_tradingview_link (symbol_with_suffix : string)
  : option string :=
  exchange ← (if endswith symbol_with_suffix ".NS" then Some "NSE"
              else if endswith symbol_with_suffix ".BSE" then Some "BSE"
              else None);
  let symbol := before_first_dot symbol_with_suffix in
  Some ("https://www.tradingview.com/chart/?symbol="
        +:+ exchange +:+ ":" +:+ symbol).

(** The last character of [s]. *)
Fixpoint last_char (s : string) : option Ascii.ascii :=
  match s with
  | EmptyString => None
  | String c EmptyString => Some c
  | String _ s' => last_char s'
  end.

(** [s] holds no dot. *)
Definition dot_free (s : string) : Prop := ∀ p q, s ≠ p +:+ "." +:+ q.

(** ** The pipeline on a frame *)

(** Pivot lows of the oscillator column, then the divergences among
    them, read off a frame: what [pipeline] computes on the frame its
    reference names. *)
Definition pipeline_of (d : DataFrame) : res (list Z) :=
  rsi ← col d "rsi";
  pivot_lows ← find_pivot_lows rsi pivot_lookback pivot_lookback;
  check_bullish_divergence d pivot_lows.


(** ** [download_data], step by step *)

(** The state after the daily reset at the head of [download_data]. *)
Definition after_daily_reset (st : state) : state :=
  if bool_decide (_cache_date st ≠ Some (clock st))
  then set_cache ∅ (Some (clock st)) st
  else st.

(** The state once the provider has handed back the frame [d] for
    [symbol]. *)
Definition after_fetch (symbol : string) (d : DataFrame) (st : state) : state :=
  set_heap (heap st ++ [d]) (log_fetch symbol st).

(** ** Frames without later bars *)

(** The oscillator of the close column of [d] is not longer than the
    index of [d], and the bar of [d] dated [today], if there is one, has
    fewer than [pivot_lookback] bars after it.  A frame whose dates
    ascend and whose last bar is dated [today] or earlier is so. *)
Definition no_later_bars {world : Externals} (today : day) (d : DataFrame)
  : Prop :=
  (∀ close, columns d !! "Close" = Some close →
     len (rsi_indicator close rsi_period) ≤ df_len d)
  ∧ (∀ idx : nat, index d !! idx = Some today →
       df_len d - pivot_lookback ≤ Z.of_nat idx).

Definition heap_no_later_bars {world : Externals} (st : state) : Prop :=
  ∀ r d, heap st !! r = Some d → no_later_bars (clock st) d.

(** The loop of [scan_for_today_divergences] over the divergences of one
    symbol. *)
Definition report_today {world : Externals} (data : ref) (symbol : string)
    (idx : Z) : M (list (gmap string pyval) * state) unit :=
  d ← globally (deref data);
  index_date ← lift (getitem (index d) idx);
  today ← globally (is_today index_date);
  if today : bool
  then result ← lift (today_result d symbol idx index_date);
       append result
  else mret tt.

(** ** The items of the scans *)


Definition today_keys : gset string :=
  list_to_set ["symbol"; "date"; "rsi"; "close"; "low"; "high"; "volume"].



(** An item of [scan_for_today_divergences] for [symbol]. *)
Definition today_item (symbol : string) (today : day)
    (item : gmap string pyval) : Prop :=
  item !! "symbol" = Some (PyStr symbol)
  ∧ item !! "date" = Some (PyDate today)
  ∧ dom item = today_keys.


(** Started where [I] holds, [m] leaves a state where [I] holds and the
    local list it was given with items of [P] added at its end, whether
    it returns or raises. *)
Definition adds {B A} (I : state → Prop) (P : B → Prop)
    (m : M (list B * state) A) : Prop :=
  ∀ l st, I st →
    I (m (l, st)).2.2 ∧ ∃ l', (m (l, st)).2.1 = l ++ l' ∧ Forall P l'.


(** * Sequences and loops *)

Section sequences.
Context {A : Type}.
Implicit Types (s : list A) (i : Z).

Lemma getitem_in_range s i :
  0 ≤ i < len s → ∃ x, s !! Z.to_nat i = Some x ∧ getitem s i = Ok x.
Proof.
  intros Hi. unfold getitem.
  destruct (Z.ltb_spec i 0) as [?|_]; [lia|].
  destruct (Z.ltb_spec i 0) as [?|_]; [lia|].
  destruct (Z.leb_spec (len s) i) as [?|_]; [lia|]. simpl.
  destruct (lookup_lt_is_Some_2 s (Z.to_nat i)) as [x Hx].
  { unfold len in Hi. lia. }
  exists x. by rewrite Hx.
Qed.

End sequences.

Lemma elem_of_range a b i : i ∈ range a b ↔ a ≤ i < b.
Proof.
  unfold range. rewrite list_elem_of_lookup. split.
  - intros [k Hk]. apply lookup_seqZ in Hk. lia.
  - intros Hi. exists (Z.to_nat (i - a)). apply lookup_seqZ. lia.
Qed.

Lemma range_empty a b : b ≤ a → range a b = [].
Proof. intros. unfold range. apply seqZ_nil. lia. Qed.

Lemma range_sorted a b : StronglySorted Z.lt (range a b).
Proof.
  unfold range. generalize (b - a). intros n. revert a.
  induction n as [|n Hn IH|n Hn _] using (Z.succ_pred_induction 0); intros a.
  - rewrite seqZ_nil by lia. constructor.
  - rewrite seqZ_cons by lia. rewrite Z.pred_succ. constructor; [apply IH|].
    apply Forall_forall. intros k Hk. apply list_elem_of_lookup in Hk as [j Hj].
    apply lookup_seqZ in Hj. lia.
  - rewrite seqZ_nil by lia. constructor.
Qed.

Section sorted.
Context {A : Type}.

Lemma filter_strongly_sorted (R : relation A) (P : A → Prop)
    `{∀ x, Decision (P x)} (l : list A) :
  StronglySorted R l → StronglySorted R (filter P l).
Proof.
  induction 1 as [|x l Hl IH Hx]; [constructor|].
  rewrite filter_cons. destruct (decide (P x)); [|done].
  constructor; [done|]. apply Forall_forall. intros y Hy.
  apply list_elem_of_filter in Hy as [_ Hy].
  by eapply Forall_forall in Hx.
Qed.

Lemma strongly_sorted_lookup (R : relation A) (l : list A) (i j : nat) x y :
  StronglySorted R l → (i < j)%nat →
  l !! i = Some x → l !! j = Some y → R x y.
Proof.
  intros Hl. revert i j. induction Hl as [|z l Hl IH Hz]; intros i j Hij Hx Hy.
  - done.
  - destruct j as [|j]; [lia|]. simpl in Hy. destruct i as [|i].
    + simpl in Hx. simplify_eq. eapply Forall_forall in Hz; [done|].
      by eapply list_elem_of_lookup_2.
    + simpl in Hx. eapply IH; [|done..]. lia.
Qed.

Lemma bind_strongly_sorted {B} (R : relation A) (R' : relation B)
    (g : A → list B) (l : list A) :
  StronglySorted R l →
  (∀ a, StronglySorted R' (g a)) →
  (∀ a b x y, a ∈ l → b ∈ l → R a b → x ∈ g a → y ∈ g b → R' x y) →
  StronglySorted R' (l ≫= g).
Proof.
  intros Hl Hg Hcross. induction Hl as [|a l Hl IH Ha]; [constructor|].
  rewrite bind_cons. apply StronglySorted_app_2; [|apply Hg|].
  - intros x y Hx Hy. apply list_elem_of_bind in Hy as (b & Hy & Hb).
    apply (Hcross a b); [by left|by right| |done..].
    by eapply Forall_forall in Ha.
  - apply IH. intros a' b' x y Ha' Hb'. apply Hcross; by right.
Qed.
End sorted.

Lemma strongly_sorted_lt_NoDup (l : list Z) : StronglySorted Z.lt l → NoDup l.
Proof.
  induction 1 as [|x l Hl IH Hx]; constructor; [|done].
  intros Hin. eapply Forall_forall in Hx; [|done]. lia.
Qed.

Lemma strongly_sorted_lt_sublist (l1 l2 : list Z) :
  StronglySorted Z.lt l1 → StronglySorted Z.lt l2 → l1 ⊆ l2 →
  l1 `sublist_of` l2.
Proof.
  intros H1 H2. revert l1 H1.
  induction H2 as [|b l2 H2 IH Hb]; intros l1 H1 Hsub.
  - destruct l1 as [|a l1]; [constructor|].
    destruct (not_elem_of_nil a). apply Hsub. by left.
  - destruct l1 as [|a l1]; [apply sublist_nil_l|].
    apply StronglySorted_inv in H1 as [H1 Ha].
    assert (Htail : ∀ y, y ∈ l1 → a < y).
    { intros y Hy. by eapply Forall_forall in Ha. }
    assert (Hlater : ∀ y, y ∈ l2 → b < y).
    { intros y Hy. by eapply Forall_forall in Hb. }
    destruct (decide (a = b)) as [->|Hne].
    + apply sublist_skip, IH; [done|]. intros y Hy.
      assert (y ∈ b :: l2) as [|]%elem_of_cons by (apply Hsub; by right);
        [|done].
      specialize (Htail y Hy). lia.
    + apply sublist_cons, IH; [by constructor|]. intros y Hy.
      assert (a ∈ b :: l2) as [|Hal2]%elem_of_cons by (apply Hsub; by left);
        [done|].
      assert (y ∈ b :: l2) as [->|]%elem_of_cons by (by apply Hsub); [|done].
      specialize (Hlater a Hal2).
      apply elem_of_cons in Hy as [->|Hy]; [lia|].
      specialize (Htail b Hy). lia.
Qed.

Section loops.
Context {A : Type}.

Lemma all_forallb (f : A → res bool) (g : A → bool) (l : list A) :
  (∀ x, x ∈ l → f x = Ok (g x)) → all_ f l = Ok (forallb g l).
Proof.
  induction l as [|x l IH]; intros Hf; [done|]. simpl.
  rewrite (Hf x) by left. simpl.
  destruct (g x); [|done]. apply IH. intros y Hy. apply Hf. by right.
Qed.

Lemma for_bind {B} (body : A → list B → res (list B)) (g : A → list B)
    (l : list A) (acc : list B) :
  (∀ x acc, x ∈ l → body x acc = Ok (acc ++ g x)) →
  for_ l body acc = Ok (acc ++ (l ≫= g)).
Proof.
  revert acc. induction l as [|x l IH]; intros acc Hb; simpl.
  - by rewrite app_nil_r.
  - rewrite Hb by left. simpl. rewrite IH by (intros; apply Hb; by right).
    by rewrite <-app_assoc.
Qed.

Lemma for_filter (cond : A → res bool) (p : A → bool) (l acc : list A) :
  (∀ x, x ∈ l → cond x = Ok (p x)) →
  for_ l (λ i pivots,
            b ← cond i; Ok (if b : bool then pivots ++ [i] else pivots))
       acc
  = Ok (acc ++ filter (λ i, p i = true) l).
Proof.
  revert acc. induction l as [|x l IH]; intros acc Hc; simpl.
  - by rewrite filter_nil, app_nil_r.
  - rewrite (Hc x) by left. simpl. rewrite filter_cons.
    destruct (p x) eqn:Hp.
    + rewrite decide_True by done. rewrite IH by (intros; apply Hc; by right).
      by rewrite <-app_assoc.
    + rewrite decide_False by done. apply IH. intros; apply Hc; by right.
Qed.
End loops.

(** * Comparisons of floats *)

Lemma lt_not_eqb (x y : float) : F64.lt x y = true → F64.eqb x y = false.
Proof.
  unfold F64.lt, F64.eqb, SFltb, SFeqb. by destruct (SFcompare x y) as [[]|].
Qed.

Lemma lt_not_nan (x y : float) :
  F64.lt x y = true → F64.is_nan x = false ∧ F64.is_nan y = false.
Proof. unfold F64.lt, SFltb. by destruct x, y. Qed.

Lemma compare_antisym (x y : float) :
  SFcompare y x = CompOpp <$> SFcompare x y.
Proof.
  destruct x as [sx|sx| |sx mx ex], y as [sy|sy| |sy my ey]; simpl;
    try done; try (by destruct sx); try (by destruct sy);
    try (by destruct sx, sy).
  pose proof (Pos.compare_cont_antisym mx my Eq) as E. simpl in E.
  destruct sx, sy; simpl; try done; f_equal;
    rewrite (Z.compare_antisym ex ey); destruct (ex ?= ey); simpl; try done;
    by rewrite <-E.
Qed.

Lemma gt_not_eqb (x y : float) : F64.gt x y = true → F64.eqb x y = false.
Proof.
  unfold F64.gt, F64.eqb, SFltb, SFeqb. rewrite (compare_antisym x y).
  by destruct (SFcompare x y) as [[]|].
Qed.

(** * C1, C7: pivot lows *)

Section pivots.
Implicit Types (series : list float) (left right i j k : Z).

Lemma lower_than_in_range series i k :
  0 ≤ i < len series → 0 ≤ k < len series →
  lower_than series i k = Ok (belowb series i k).
Proof.
  intros Hi Hk. unfold lower_than, iloc, belowb.
  destruct (getitem_in_range series i Hi) as (x & Hx & ->).
  destruct (getitem_in_range series k Hk) as (y & Hy & ->).
  by rewrite Hx, Hy.
Qed.

Lemma pivot_test_in_range series left right i :
  left ≤ i < len series - right → 0 ≤ left → 0 ≤ right →
  pivot_test series left right i = Ok (pivot_lowb series left right i).
Proof.
  intros Hi Hl Hr. unfold pivot_test, pivot_lowb.
  rewrite (all_forallb (λ j, lower_than series i (i - j))
                       (λ j, belowb series i (i - j))).
  2:{ intros j Hj%elem_of_range. apply lower_than_in_range; lia. }
  simpl. destruct (forallb _ (range 1 (left + 1))); [|done]. simpl.
  apply (all_forallb _ (λ j, belowb series i (i + j))).
  intros j Hj%elem_of_range. apply lower_than_in_range; lia.
Qed.

Lemma find_pivot_lows_filter series left right :
  0 ≤ left → 0 ≤ right →
  find_pivot_lows series left right
  = Ok (filter (λ i, pivot_lowb series left right i = true)
               (range left (len series - right))).
Proof.
  intros Hl Hr. unfold find_pivot_lows.
  rewrite (for_filter _ (pivot_lowb series left right)); [done|].
  intros i Hi%elem_of_range. by apply pivot_test_in_range.
Qed.

Lemma belowb_strictly_below series i k :
  belowb series i k = true ↔ strictly_below series i k.
Proof.
  unfold belowb, strictly_below. split.
  - destruct (series !! Z.to_nat i) as [x|]; [|done].
    destruct (series !! Z.to_nat k) as [y|]; [|done]. eauto.
  - intros (x & y & -> & -> & H). done.
Qed.

Lemma strictly_above_below series i k :
  strictly_above series i k ↔ strictly_below series k i.
Proof.
  unfold strictly_above, strictly_below, F64.gt, F64.lt.
  split; intros (x & y & ? & ? & ?); eauto.
Qed.

Lemma pivot_lowb_spec series left right i :
  pivot_lowb series left right i = true ↔
    (∀ j, 1 ≤ j ≤ left → strictly_below series i (i - j))
    ∧ (∀ j, 1 ≤ j ≤ right → strictly_below series i (i + j)).
Proof.
  unfold pivot_lowb. rewrite andb_true_iff, !forallb_forall.
  split; intros [H1 H2]; split; intros j Hj.
  - apply belowb_strictly_below, H1, list_elem_of_In, elem_of_range. lia.
  - apply belowb_strictly_below, H2, list_elem_of_In, elem_of_range. lia.
  - apply belowb_strictly_below, H1.
    apply list_elem_of_In, elem_of_range in Hj. lia.
  - apply belowb_strictly_below, H2.
    apply list_elem_of_In, elem_of_range in Hj. lia.
Qed.

Lemma elem_of_pivots series left right i :
  i ∈ filter (λ i, pivot_lowb series left right i = true)
             (range left (len series - right)) ↔
  left ≤ i < len series - right
  ∧ (∀ j, 1 ≤ j ≤ left → strictly_below series i (i - j))
  ∧ (∀ j, 1 ≤ j ≤ right → strictly_below series i (i + j)).
Proof.
  rewrite list_elem_of_filter, elem_of_range, pivot_lowb_spec. tauto.
Qed.

Lemma strictly_below_not_tie series i k :
  strictly_below series i k → ¬ tie series i k.
Proof.
  intros (x & y & Hx & Hy & Hlt) (x' & y' & Hx' & Hy' & Heq).
  simplify_eq. apply lt_not_eqb in Hlt. congruence.
Qed.

Lemma strictly_below_defined series i k :
  strictly_below series i k → defined_at series i ∧ defined_at series k.
Proof.
  intros (x & y & Hx & Hy & [??]%lt_not_nan). split; eexists; eauto.
Qed.
End pivots.

(** C1. For a non-negative window, [find_pivot_lows] returns (without
    raising) exactly the indices [i] with [left <= i < len - right] whose
    value is strictly less than each of the [left] preceding and [right]
    following values; the list is ascending and duplicate-free, an index
    with a tie in its window is never returned, and a series shorter than
    [left + right + 1] gives the empty list. *)
Theorem find_pivot_lows_exact (series : list float) (left right : Z) :
  0 ≤ left → 0 ≤ right →
  ∃ pivots,
    find_pivot_lows series left right = Ok pivots
    ∧ (∀ i, i ∈ pivots ↔
         left ≤ i < len series - right
         ∧ (∀ j, 1 ≤ j ≤ left → strictly_below series i (i - j))
         ∧ (∀ j, 1 ≤ j ≤ right → strictly_below series i (i + j)))
    ∧ StronglySorted Z.lt pivots
    ∧ NoDup pivots
    ∧ (∀ i j, i ∈ pivots →
         (1 ≤ j ≤ left → ¬ tie series i (i - j))
         ∧ (1 ≤ j ≤ right → ¬ tie series i (i + j)))
    ∧ (len series < left + right + 1 → pivots = []).
Proof.
  intros Hl Hr. eexists. split; [by apply find_pivot_lows_filter|].
  split; [apply elem_of_pivots|].
  assert (Hs : StronglySorted Z.lt
    (filter (λ i, pivot_lowb series left right i = true)
            (range left (len series - right)))).
  { apply filter_strongly_sorted, range_sorted. }
  split; [exact Hs|]. split; [by apply strongly_sorted_lt_NoDup|]. split.
  - intros i j Hi. apply elem_of_pivots in Hi as (_ & H1 & H2).
    split; intros Hj; apply strictly_below_not_tie; auto.
  - intros Hshort. rewrite range_empty by lia. done.
Qed.

Lemma find_pivot_lows_exact_witness :
  ∃ pivots, find_pivot_lows engineered_rsi 5 5 = Ok pivots ∧ pivots = [5; 11].
Proof.
  destruct (find_pivot_lows_exact engineered_rsi 5 5)
    as (pivots & Hp & _); [lia | lia |].
  exists pivots. split; [exact Hp|].
  vm_compute in Hp. by injection Hp.
Defined.

(** C7. For a non-negative window other than (0, 0),
    [find_pivot_lows] returns no index whose own value is NaN and no index
    whose comparison window holds a NaN. *)
Theorem find_pivot_lows_nan_free (series : list float) (left right : Z) :
  0 ≤ left → 0 ≤ right → 1 ≤ left + right →
  ∃ pivots,
    find_pivot_lows series left right = Ok pivots
    ∧ ∀ i, i ∈ pivots → nan_free_window series left right i.
Proof.
  intros Hl Hr Hw. eexists. split; [by apply find_pivot_lows_filter|].
  intros i (Hi & H1 & H2)%elem_of_pivots. split; [|split].
  - destruct (decide (1 ≤ left)).
    + by apply (strictly_below_defined series i (i - 1)), H1.
    + by apply (strictly_below_defined series i (i + 1)), H2; lia.
  - intros j Hj. by apply (strictly_below_defined series i (i - j)), H1.
  - intros j Hj. by apply (strictly_below_defined series i (i + j)), H2.
Qed.

Lemma find_pivot_lows_nan_free_witness :
  ∃ pivots,
    find_pivot_lows [F64.of_Z 3; F64.nan; F64.of_Z 1; F64.of_Z 2] 1 1 = Ok pivots
    ∧ ∀ i, i ∈ pivots →
        nan_free_window [F64.of_Z 3; F64.nan; F64.of_Z 1; F64.of_Z 2] 1 1 i.
Proof.
  apply (find_pivot_lows_nan_free
           [F64.of_Z 3; F64.nan; F64.of_Z 1; F64.of_Z 2] 1 1); lia.
Defined.

(** C7 does not hold for the window (0, 0): no comparison is made, so
    every index is returned, the NaN ones too. *)
Lemma find_pivot_lows_returns_nan :
  find_pivot_lows [F64.nan] 0 0 = Ok [0]
  ∧ 0 ∈ [0]
  ∧ ¬ nan_free_window [F64.nan] 0 0 0.
Proof.
  split; [reflexivity|]. split; [by left|].
  intros [(x & Hx & Hnan) _]. simpl in Hx. by simplify_eq.
Qed.


(** * C2: bullish divergence between adjacent pivots *)

Section divergence.
Variables (data : DataFrame) (osc low : list float) (pivot_lows : list Z).
Hypothesis Hrsi : columns data !! "rsi" = Some osc.
Hypothesis Hlow : columns data !! "Low" = Some low.
Hypothesis Hrange :
  Forall (λ p, 0 ≤ p < len osc ∧ p < len low) pivot_lows.

Lemma pivot_in_range (i : nat) p :
  pivot_lows !! i = Some p → 0 ≤ p < len osc ∧ p < len low.
Proof.
  intros Hp. eapply Forall_forall in Hrange; [done|].
  by eapply list_elem_of_lookup_2.
Qed.

Lemma divergence_step i divergences :
  1 ≤ i < len pivot_lows →
  (curr ← getitem pivot_lows i;
   prev ← getitem pivot_lows (i - 1);
   rsi_curr ← (s ← col data "rsi"; iloc s curr);
   rsi_prev ← (s ← col data "rsi"; iloc s prev);
   let rsi_hl := F64.gt rsi_curr rsi_prev in
   low_curr ← (s ← col data "Low"; iloc s curr);
   low_prev ← (s ← col data "Low"; iloc s prev);
   let price_ll := F64.lt low_curr low_prev in
   Ok (if rsi_hl && price_ll then divergences ++ [curr] else divergences))
  = Ok (divergences ++ flags_at osc low pivot_lows i).
Proof.
  intros Hi. unfold flags_at, col, iloc. rewrite Hrsi, Hlow.
  destruct (getitem_in_range pivot_lows i) as (curr & Hc & ->); [lia|].
  destruct (getitem_in_range pivot_lows (i - 1)) as (prev & Hp & ->); [lia|].
  rewrite Hc, Hp. simpl.
  destruct (pivot_in_range _ _ Hc) as [Hc1 Hc2].
  destruct (pivot_in_range _ _ Hp) as [Hp1 Hp2].
  destruct (getitem_in_range osc curr Hc1) as (x & Hx & ->).
  destruct (getitem_in_range osc prev Hp1) as (y & Hy & ->).
  destruct (getitem_in_range low curr) as (u & Hu & ->); [lia|].
  destruct (getitem_in_range low prev) as (v & Hv & ->); [lia|].
  simpl. unfold belowb. rewrite Hx, Hy, Hu, Hv. unfold F64.gt, F64.lt.
  destruct (SFltb y x && SFltb u v); [done|]. by rewrite app_nil_r.
Qed.

Lemma check_bullish_divergence_bind :
  check_bullish_divergence data pivot_lows
  = Ok (range 1 (len pivot_lows) ≫= flags_at osc low pivot_lows).
Proof.
  unfold check_bullish_divergence.
  rewrite (for_bind _ (flags_at osc low pivot_lows)); [done|].
  intros i acc Hi%elem_of_range. by apply divergence_step.
Qed.

Lemma elem_of_flags_at i c :
  c ∈ flags_at osc low pivot_lows i ↔
    ∃ prev, pivot_lows !! Z.to_nat i = Some c
            ∧ pivot_lows !! Z.to_nat (i - 1) = Some prev
            ∧ strictly_above osc c prev ∧ strictly_below low c prev.
Proof.
  unfold flags_at. setoid_rewrite strictly_above_below.
  destruct (pivot_lows !! Z.to_nat i) as [curr|] eqn:Hc;
    [|split; [by intros ?%not_elem_of_nil|by intros (?&?&?)]].
  destruct (pivot_lows !! Z.to_nat (i - 1)) as [prev|] eqn:Hp;
    [|split; [by intros ?%not_elem_of_nil|by intros (?&?&?&?)]].
  destruct (belowb osc prev curr && belowb low curr prev) eqn:Hb.
  - apply andb_true_iff in Hb as [H1 H2].
    rewrite list_elem_of_singleton. split.
    + intros ->. exists prev. by rewrite <-!belowb_strictly_below.
    + by intros (? & [= ->] & _).
  - split; [by intros ?%not_elem_of_nil|].
    intros (prev' & [= ->] & [= ->] & H1 & H2).
    apply belowb_strictly_below in H1, H2. rewrite H1, H2 in Hb. done.
Qed.

Lemma elem_of_flags c :
  c ∈ range 1 (len pivot_lows) ≫= flags_at osc low pivot_lows ↔
    ∃ (i : nat) prev,
      pivot_lows !! i = Some prev ∧ pivot_lows !! S i = Some c
      ∧ strictly_above osc c prev ∧ strictly_below low c prev.
Proof.
  rewrite list_elem_of_bind. split.
  - intros (i & (prev & Hc & Hp & Hcond)%elem_of_flags_at & Hi%elem_of_range).
    exists (Z.to_nat (i - 1)), prev. split; [done|].
    by replace (S (Z.to_nat (i - 1))) with (Z.to_nat i) by lia.
  - intros (i & prev & Hp & Hc & Hcond). exists (Z.of_nat (S i)). split.
    + apply elem_of_flags_at. exists prev.
      rewrite Nat2Z.id. replace (Z.to_nat (Z.of_nat (S i) - 1)) with i by lia. done.
    + apply elem_of_range. apply lookup_lt_Some in Hc. unfold len. lia.
Qed.

Lemma flags_at_sorted i : StronglySorted Z.lt (flags_at osc low pivot_lows i).
Proof.
  unfold flags_at. repeat case_match; repeat constructor.
Qed.
End divergence.

(** C2. On a strictly ascending list of pivot indices that lie within the
    oscillator and low-price columns, [check_bullish_divergence] returns
    (without raising) a list that holds the pivot at position [i+1]
    exactly when its oscillator value is strictly above and its low
    strictly below those of the pivot at position [i]; the first pivot is
    never flagged, a pivot whose oscillator value equals its
    predecessor's is not flagged, and the flags are an ascending,
    duplicate-free subsequence of the pivots after the first. *)
Theorem check_bullish_divergence_exact (data : DataFrame)
    (osc low : list float) (pivot_indices : list Z) :
  columns data !! "rsi" = Some osc →
  columns data !! "Low" = Some low →
  StronglySorted Z.lt pivot_indices →
  Forall (λ p, 0 ≤ p < len osc ∧ p < len low) pivot_indices →
  ∃ flags,
    check_bullish_divergence data pivot_indices = Ok flags
    ∧ (∀ (i : nat) prev curr,
         pivot_indices !! i = Some prev → pivot_indices !! S i = Some curr →
         (curr ∈ flags ↔
            strictly_above osc curr prev ∧ strictly_below low curr prev))
    ∧ (∀ first, pivot_indices !! 0%nat = Some first → first ∉ flags)
    ∧ (∀ (i : nat) prev curr,
         pivot_indices !! i = Some prev → pivot_indices !! S i = Some curr →
         tie osc curr prev → curr ∉ flags)
    ∧ StronglySorted Z.lt flags
    ∧ NoDup flags
    ∧ flags `sublist_of` tail pivot_indices.
Proof.
  intros Hrsi Hlow Hsorted Hrange.
  pose proof (strongly_sorted_lt_NoDup _ Hsorted) as Hnodup.
  eexists. split; [by eapply check_bullish_divergence_bind|].
  set (flags := range 1 (len pivot_indices) ≫= flags_at osc low pivot_indices).
  assert (Hiff : ∀ (i : nat) prev curr,
    pivot_indices !! i = Some prev → pivot_indices !! S i = Some curr →
    (curr ∈ flags ↔
       strictly_above osc curr prev ∧ strictly_below low curr prev)).
  { intros i prev curr Hp Hc. unfold flags. rewrite elem_of_flags. split.
    - intros (i' & prev' & Hp' & Hc' & Hcond).
      assert (S i' = S i) as [= ->] by (by eapply NoDup_lookup).
      by simplify_eq.
    - intros Hcond. by exists i, prev. }
  assert (Hafter : ∀ c, c ∈ flags → c ∈ tail pivot_indices).
  { intros c (i & prev & _ & Hc & _)%elem_of_flags.
    apply list_elem_of_lookup. exists i. by rewrite lookup_tail. }
  assert (Hs : StronglySorted Z.lt flags).
  { apply (bind_strongly_sorted Z.lt); [apply range_sorted| |].
    - apply flags_at_sorted.
    - intros a b x y Ha%elem_of_range Hb%elem_of_range Hab
        (? & Hx & _)%elem_of_flags_at (? & Hy & _)%elem_of_flags_at.
      apply (strongly_sorted_lookup Z.lt pivot_indices
               (Z.to_nat a) (Z.to_nat b)); [done|lia|done..]. }
  assert (Htail : StronglySorted Z.lt (tail pivot_indices)).
  { destruct Hsorted; [constructor|done]. }
  split; [exact Hiff|]. split; [|split; [|split; [|split]]].
  - intros first Hfirst Hin. apply Hafter in Hin.
    apply list_elem_of_lookup in Hin as [i Hi]. rewrite lookup_tail in Hi.
    by assert (S i = 0%nat) by (by eapply NoDup_lookup).
  - intros i prev curr Hp Hc (x & y & Hx & Hy & Heq).
    rewrite (Hiff i prev curr Hp Hc). intros [(x' & y' & Hx' & Hy' & Hgt) _].
    simplify_eq. apply gt_not_eqb in Hgt. congruence.
  - exact Hs.
  - by apply strongly_sorted_lt_NoDup.
  - by apply strongly_sorted_lt_sublist.
Qed.

Lemma check_bullish_divergence_exact_witness :
  ∃ flags, check_bullish_divergence engineered [5; 11] = Ok flags
           ∧ flags = [11].
Proof.
  destruct (check_bullish_divergence_exact engineered engineered_rsi
              (F64.of_Z <$>
                 [45; 45; 45; 45; 45; 44; 45; 45; 45; 45; 45; 43; 45; 45; 45;
                  45; 45])
              [5; 11])
    as (flags & Hf & _).
  - reflexivity.
  - reflexivity.
  - repeat constructor.
  - repeat constructor; vm_compute; congruence.
  - exists flags. split; [exact Hf|]. vm_compute in Hf. by injection Hf.
Defined.


(** * C4, C5, C10: the projection record of one divergence *)

Lemma for_foldl {A S} (body : A → S → res S) (g : S → A → S) (l : list A)
    (s : S) :
  (∀ x s, x ∈ l → body x s = Ok (g s x)) → for_ l body s = Ok (foldl g s l).
Proof.
  revert s. induction l as [|x l IH]; intros s Hb; [done|]. simpl.
  rewrite Hb by left. simpl. apply IH. intros; apply Hb; by right.
Qed.

Section projection.
Context {world : Externals}.
Variables (d : DataFrame) (rsi close open : list float) (idx : Z).
Hypothesis Hrsi : columns d !! "rsi" = Some rsi.
Hypothesis Hclose : columns d !! "Close" = Some close.
Hypothesis Hopen : columns d !! "Open" = Some open.
Hypothesis Haligned : aligned d.
Hypothesis Hidx : 0 ≤ idx < df_len d.

Lemma cell name s k :
  columns d !! name = Some s → 0 ≤ k < df_len d →
  ∃ x, s !! Z.to_nat k = Some x ∧ (s ← col d name; iloc s k) = Ok x.
Proof.
  intros Hs Hk. unfold col, iloc. rewrite Hs. simpl.
  apply getitem_in_range. by rewrite (Haligned name s).
Qed.

Lemma returns_step_ok base_price j acc :
  1 ≤ j →
  (let '(future_returns, available_days) := acc in
   if idx + j <? df_len d
   then
     future_close ← (s ← col d "Close"; iloc s (idx + j));
     let ret :=
       F64.mul (F64.div (F64.sub future_close base_price) base_price)
               (F64.of_Z 100) in
     Ok (<[day_key j := PyFloat (round ret 2)]> future_returns, j)
   else Ok (<[day_key j := PyNone]> future_returns, available_days))
  = Ok (returns_step d close idx base_price acc j).
Proof.
  intros Hj. destruct acc as [fr av]. unfold returns_step, return_slot. simpl.
  destruct (Z.ltb_spec (idx + j) (df_len d)) as [Hlt|Hge].
  - rewrite !decide_True by done.
    destruct (cell "Close" close (idx + j)) as (c & Hc & ->); [done|lia|].
    by rewrite Hc.
  - by rewrite !decide_False by lia.
Qed.

Lemma forward_returns_fold base_price :
  forward_returns d idx base_price
  = Ok (foldl (returns_step d close idx base_price) (∅, 0) [1; 2; 3; 4; 5]).
Proof.
  unfold forward_returns.
  rewrite (for_foldl _ (returns_step d close idx base_price)); [done|].
  intros j acc Hj%elem_of_range. apply returns_step_ok. lia.
Qed.

Lemma day_keys :
  day_key 1 = "Day+1 Return (%)" ∧ day_key 2 = "Day+2 Return (%)"
  ∧ day_key 3 = "Day+3 Return (%)" ∧ day_key 4 = "Day+4 Return (%)"
  ∧ day_key 5 = "Day+5 Return (%)".
Proof. repeat split; reflexivity. Qed.

Lemma one_to_five j : 1 ≤ j ≤ 5 → j = 1 ∨ j = 2 ∨ j = 3 ∨ j = 4 ∨ j = 5.
Proof. lia. Qed.

Lemma projection_lookup symbol use_next_open is_target_today :
  ∃ record close_today available_days,
    projection d symbol idx use_next_open is_target_today = Ok record
    ∧ close !! Z.to_nat idx = Some close_today
    ∧ (∀ j, 1 ≤ j ≤ 5 →
         record !! day_key j
         = Some (return_slot d close idx
                   (base_price_of d open idx use_next_open close_today) j))
    ∧ record !! "Available Future Days" = Some (PyInt available_days)
    ∧ 0 ≤ available_days ≤ 5
    ∧ (∀ j, 1 ≤ j ≤ 5 → (idx + j < df_len d ↔ j ≤ available_days))
    ∧ record !! "Prev Close"
      = Some match prev_close_read close idx with
             | Some c => if F64.truthy c then PyFloat (round c 2) else PyNone
             | None => PyNone
             end.
Proof.
  destruct (cell "rsi" rsi idx Hrsi Hidx) as (rsi_val & Hr & Er).
  destruct (cell "Close" close idx Hclose Hidx) as (close_today & Hc & Ec).
  assert (Eprev :
    (if 0 <? idx
     then x ← (s ← col d "Close"; iloc s (idx - 1)); Ok (Some x)
     else Ok None) = Ok (prev_close_read close idx)).
  { unfold prev_close_read. destruct (Z.ltb_spec 0 idx); [|done].
    destruct (cell "Close" close (idx - 1)) as (x & Hx & ->); [done|lia|].
    by rewrite Hx. }
  assert (Enext :
    (if idx + 1 <? df_len d
     then x ← (s ← col d "Open"; iloc s (idx + 1)); Ok (Some x)
     else Ok None) = Ok (next_open_read d open idx)).
  { unfold next_open_read. destruct (Z.ltb_spec (idx + 1) (df_len d)); [|done].
    destruct (cell "Open" open (idx + 1)) as (x & Hx & ->); [done|lia|].
    by rewrite Hx. }
  pose proof day_keys as (K1 & K2 & K3 & K4 & K5).
  unfold projection. rewrite Er, Ec, Eprev, Enext. simpl.
  unfold base_price_of.
  destruct use_next_open, (next_open_read d open idx) as [o|]; simpl;
    rewrite forward_returns_fold; simpl;
    (eexists _, close_today, _; split; [reflexivity|]; split; [done|]);
    rewrite K1, K2, K3, K4, K5;
    (split;
     [ intros j [->| [->| [->| [->| ->]]]]%one_to_five;
         rewrite ?K1, ?K2, ?K3, ?K4, ?K5;
         apply lookup_union_Some_l; by simplify_map_eq
     | split;
       [ rewrite lookup_union_r by (by simplify_map_eq); by simplify_map_eq
       | split;
         [ repeat case_decide; lia
         | split;
           [ intros j Hj; repeat case_decide; lia
           | rewrite lookup_union_r by (by simplify_map_eq);
             by simplify_map_eq ]]]]).
Qed.
End projection.

Lemma zero_base_return (future_close base_price : float) :
  F64.is_zero base_price = true →
  let ret := F64.mul (F64.div (F64.sub future_close base_price) base_price)
                     (F64.of_Z 100) in
  F64.is_inf ret || F64.is_nan ret = true.
Proof.
  intros Hz. change (F64.of_Z 100) with (S754_finite false 7036874417766400 (-46)).
  destruct base_price as [sb| | |]; try done.
  destruct future_close as [s|s| |s m e]; try done;
    by destruct s, sb.
Qed.

Lemma aligned_engineered : aligned engineered.
Proof.
  intros name s Hs. unfold engineered, set_col, bars in Hs. simpl in Hs.
  repeat (apply lookup_insert_Some in Hs as [[_ <-]|[_ Hs]]; [reflexivity|]).
  by rewrite lookup_empty in Hs.
Qed.

(** C5. For a divergence at [idx] of a well-formed frame, the record is
    built without raising; the base price is the next bar's open when
    [use_next_open] is set and that bar exists, the close at [idx]
    otherwise; for [j] in 1..5 the slot Day+j holds
    [round(((close[idx+j] - base) / base) * 100, 2)] when [idx + j] is in
    the series and is present with the value [None] otherwise; and
    [Available Future Days] is the largest [j] whose return was computed,
    0 when there is none. *)
Theorem projection_forward_returns {world : Externals} (d : DataFrame)
    (rsi close open : list float) (symbol : string) (idx : Z)
    (use_next_open is_target_today : bool) :
  columns d !! "rsi" = Some rsi →
  columns d !! "Close" = Some close →
  columns d !! "Open" = Some open →
  aligned d →
  0 ≤ idx < df_len d →
  ∃ record base_price available_days,
    projection d symbol idx use_next_open is_target_today = Ok record
    ∧ (if use_next_open && (idx + 1 <? df_len d)
       then open !! Z.to_nat (idx + 1) = Some base_price
       else close !! Z.to_nat idx = Some base_price)
    ∧ (∀ j, 1 ≤ j ≤ 5 → idx + j < df_len d →
         ∃ future_close,
           close !! Z.to_nat (idx + j) = Some future_close
           ∧ record !! day_key j
             = Some (PyFloat
                       (round (F64.mul
                                 (F64.div (F64.sub future_close base_price)
                                          base_price)
                                 (F64.of_Z 100)) 2)))
    ∧ (∀ j, 1 ≤ j ≤ 5 → df_len d ≤ idx + j →
         record !! day_key j = Some PyNone)
    ∧ record !! "Available Future Days" = Some (PyInt available_days)
    ∧ 0 ≤ available_days ≤ 5
    ∧ (∀ j, 1 ≤ j ≤ 5 →
         ((∃ x, record !! day_key j = Some (PyFloat x)) ↔ j ≤ available_days)).
Proof.
  intros Hrsi Hclose Hopen Haligned Hidx.
  destruct (projection_lookup d rsi close open idx Hrsi Hclose Hopen Haligned
              Hidx symbol use_next_open is_target_today)
    as (record & close_today & av & Hrec & Hc & Hslots & Hav & Hav5 & Havj & _).
  exists record, (base_price_of d open idx use_next_open close_today), av.
  assert (Hcomputed : ∀ j, 1 ≤ j ≤ 5 → idx + j < df_len d →
    ∃ future_close,
      close !! Z.to_nat (idx + j) = Some future_close
      ∧ record !! day_key j
        = Some (PyFloat
                  (round (F64.mul
                            (F64.div
                               (F64.sub future_close
                                  (base_price_of d open idx use_next_open
                                     close_today))
                               (base_price_of d open idx use_next_open
                                  close_today))
                            (F64.of_Z 100)) 2))).
  { intros j Hj Hin. rewrite (Hslots j Hj). unfold return_slot.
    rewrite decide_True by done.
    destruct (lookup_lt_is_Some_2 close (Z.to_nat (idx + j))) as [c Hcj].
    { pose proof (Haligned _ _ Hclose) as Hl. unfold len in Hl. lia. }
    exists c. by rewrite Hcj. }
  assert (Habsent : ∀ j, 1 ≤ j ≤ 5 → df_len d ≤ idx + j →
    record !! day_key j = Some PyNone).
  { intros j Hj Hout. rewrite (Hslots j Hj). unfold return_slot.
    by rewrite decide_False by lia. }
  split; [done|]. split; [|split; [done|split; [done|split; [done|split]]]].
  - unfold base_price_of, next_open_read.
    destruct use_next_open; simpl; [|done].
    destruct (Z.ltb_spec (idx + 1) (df_len d)) as [Hlt|Hge]; [|done].
    destruct (lookup_lt_is_Some_2 open (Z.to_nat (idx + 1))) as [o Ho].
    { pose proof (Haligned _ _ Hopen) as Hl. unfold len in Hl. lia. }
    by rewrite Ho.
  - done.
  - intros j Hj. rewrite <-(Havj j Hj). split.
    + intros [x Hx]. destruct (decide (idx + j < df_len d)); [done|].
      rewrite Habsent in Hx by lia. done.
    + intros Hin. destruct (Hcomputed j Hj Hin) as (c & _ & ->). eauto.
Qed.

Lemma projection_forward_returns_witness :
  ∃ record available_days,
    projection (world := engineered_world) engineered "X.NS" 14 false false
    = Ok record
    ∧ record !! "Available Future Days" = Some (PyInt available_days)
    ∧ 0 ≤ available_days ≤ 5.
Proof.
  destruct (projection_forward_returns (world := engineered_world) engineered
              engineered_rsi
              (F64.of_Z <$>
                 [52; 51; 50; 49; 48; 46; 47; 48; 49; 50; 0; 45; 46; 47; 48;
                  49; 50])
              (F64.of_Z <$>
                 [50; 50; 50; 50; 50; 47; 50; 50; 50; 50; 50; 46; 0; 50; 50;
                  50; 50])
              "X.NS" 14 false false)
    as (record & base & av & Hrec & _ & _ & _ & Hav & Hav5 & _).
  - reflexivity.
  - reflexivity.
  - reflexivity.
  - apply aligned_engineered.
  - vm_compute. split; [discriminate|reflexivity].
  - by exists record, av.
Defined.

(** The spec's example: with two bars after the divergence, two returns
    are available and the remaining slots are present and empty. *)
Example two_future_bars :
  (λ record : gmap string pyval,
     (record !! "Available Future Days", record !! day_key 2,
      record !! day_key 3, record !! day_key 5))
    <$> projection (world := engineered_world) engineered "X.NS" 14 false false
  = Ok (Some (PyInt 2),
        Some (PyFloat (S754_finite false 4695002611533742 (-50))),
        Some PyNone, Some PyNone).
Proof. vm_compute. reflexivity. Qed.

(** C4. The forward returns are computed without a guard on
    the base price and without raising: when the base price is zero,
    every slot Day+j whose bar exists is present and holds the rounding
    of a return that is an infinity or NaN; only the slots past the end
    of the series are empty. *)
Theorem projection_zero_base_price {world : Externals} (d : DataFrame)
    (rsi close open : list float) (symbol : string) (idx : Z)
    (use_next_open is_target_today : bool) :
  columns d !! "rsi" = Some rsi →
  columns d !! "Close" = Some close →
  columns d !! "Open" = Some open →
  aligned d →
  0 ≤ idx < df_len d →
  ∃ record base_price,
    projection d symbol idx use_next_open is_target_today = Ok record
    ∧ (if use_next_open && (idx + 1 <? df_len d)
       then open !! Z.to_nat (idx + 1) = Some base_price
       else close !! Z.to_nat idx = Some base_price)
    ∧ (F64.is_zero base_price = true →
       ∀ j, 1 ≤ j ≤ 5 → idx + j < df_len d →
         ∃ future_close ret,
           close !! Z.to_nat (idx + j) = Some future_close
           ∧ ret = F64.mul (F64.div (F64.sub future_close base_price)
                                    base_price)
                           (F64.of_Z 100)
           ∧ F64.is_inf ret || F64.is_nan ret = true
           ∧ record !! day_key j = Some (PyFloat (round ret 2)))
    ∧ (∀ j, 1 ≤ j ≤ 5 → df_len d ≤ idx + j →
         record !! day_key j = Some PyNone).
Proof.
  intros Hrsi Hclose Hopen Haligned Hidx.
  destruct (projection_lookup d rsi close open idx Hrsi Hclose Hopen Haligned
              Hidx symbol use_next_open is_target_today)
    as (record & close_today & av & Hrec & Hc & Hslots & _).
  exists record, (base_price_of d open idx use_next_open close_today).
  split; [done|]. split; [|split].
  - unfold base_price_of, next_open_read.
    destruct use_next_open; simpl; [|done].
    destruct (Z.ltb_spec (idx + 1) (df_len d)) as [Hlt|Hge]; [|done].
    destruct (lookup_lt_is_Some_2 open (Z.to_nat (idx + 1))) as [o Ho].
    { pose proof (Haligned _ _ Hopen) as Hl. unfold len in Hl. lia. }
    by rewrite Ho.
  - intros Hzero j Hj Hin.
    destruct (lookup_lt_is_Some_2 close (Z.to_nat (idx + j))) as [c Hcj].
    { pose proof (Haligned _ _ Hclose) as Hl. unfold len in Hl. lia. }
    eexists c, _. split; [done|]. split; [reflexivity|]. split.
    + by apply zero_base_return.
    + rewrite (Hslots j Hj). unfold return_slot.
      rewrite decide_True by done. by rewrite Hcj.
  - intros j Hj Hout. rewrite (Hslots j Hj). unfold return_slot.
    by rewrite decide_False by lia.
Qed.

Lemma projection_zero_base_price_witness :
  ∃ record,
    projection (world := engineered_world) engineered "X.NS" 11 true false
    = Ok record
    ∧ ∃ ret, F64.is_inf ret || F64.is_nan ret = true
             ∧ record !! day_key 1
               = Some (PyFloat (round (Externals := engineered_world) ret 2)).
Proof.
  destruct (projection_zero_base_price (world := engineered_world) engineered
              engineered_rsi
              (F64.of_Z <$>
                 [52; 51; 50; 49; 48; 46; 47; 48; 49; 50; 0; 45; 46; 47; 48;
                  49; 50])
              (F64.of_Z <$>
                 [50; 50; 50; 50; 50; 47; 50; 50; 50; 50; 50; 46; 0; 50; 50;
                  50; 50])
              "X.NS" 11 true false)
    as (record & base & Hrec & Hbase & Hzero & _).
  - reflexivity.
  - reflexivity.
  - reflexivity.
  - apply aligned_engineered.
  - vm_compute. split; [discriminate|reflexivity].
  - exists record. split; [exact Hrec|].
    destruct (Hzero) with (j := 1) as (c & ret & _ & _ & Hret & Hslot).
    + vm_compute in Hbase. by injection Hbase as <-.
    + lia.
    + reflexivity.
    + by exists ret.
Defined.

(** C4 does not hold as a zero-division guard: with a next open of 0
    used as base price, the slot Day+1 is not empty, it holds an
    infinity, on the record of the occurrence and through the whole
    scan. *)
Lemma zero_base_price_gives_infinity :
  (s ← col engineered "Open"; iloc s 12) = Ok (S754_zero false)
  ∧ (λ record : gmap string pyval,
        (record !! "Used Price", record !! day_key 1))
      <$> projection (world := engineered_world) engineered "AAA.NS" 11 true
                     true
    = Ok (Some (PyStr "Open Next Day"),
          Some (PyFloat (S754_infinity false)))
  ∧ fmap (M := list)
         (λ record : gmap string pyval,
            (record !! "Open Next Day", record !! day_key 1))
      <$> (get_bullish_divergence_results (world := engineered_world) 739008
             (Some ["AAA.NS"]) None true (initial_state 739008)).1
    = Ok [(Some (PyFloat (S754_zero false)),
           Some (PyFloat (S754_infinity false)))].
Proof. repeat split; vm_compute; reflexivity. Qed.



(** * Computations: what a composite keeps *)

Section preserves.
Context {Σ : Type} (R : relation Σ) `{!PreOrder R}.

Lemma preserves_unchanged {A} (m : M Σ A) :
  (∀ st, (m st).2 = st) → preserves R m.
Proof. intros Hm st. by rewrite Hm. Qed.

Lemma preserves_ret {A} (a : A) : preserves R (mret a).
Proof. by apply preserves_unchanged. Qed.

Lemma preserves_raise {A} (e : exn) : preserves R (raise (A := A) e).
Proof. by apply preserves_unchanged. Qed.

Lemma preserves_lift {A} (r : res A) : preserves R (lift r).
Proof. by apply preserves_unchanged. Qed.

Lemma preserves_gets {A} (f : Σ → A) : preserves R (gets f).
Proof. by apply preserves_unchanged. Qed.

Lemma preserves_modify (f : Σ → Σ) : (∀ st, R st (f st)) → preserves R (modify f).
Proof. intros Hf st. apply Hf. Qed.

Lemma preserves_bind {A B} (m : M Σ A) (f : A → M Σ B) :
  preserves R m → (∀ a, preserves R (f a)) → preserves R (m ≫= f).
Proof.
  intros Hm Hf st. unfold mbind, M_bind. specialize (Hm st).
  destruct (m st) as [[a|e] st']; simpl in *; [|done].
  etrans; [exact Hm|apply Hf].
Qed.

Lemma preserves_try_except {A} (body : M Σ A) (handler : exn → M Σ A) :
  preserves R body → (∀ e, preserves R (handler e)) →
  preserves R (try_except body handler).
Proof.
  intros Hb Hh st. unfold try_except. specialize (Hb st).
  destruct (body st) as [[a|e] st']; simpl in *; [done|].
  etrans; [exact Hb|apply Hh].
Qed.

Lemma preserves_for_M {A} (l : list A) (body : A → M Σ unit) :
  (∀ x, preserves R (body x)) → preserves R (for_M l body).
Proof.
  intros Hb. induction l as [|x l IH]; simpl.
  - apply preserves_ret.
  - apply preserves_bind; [apply Hb|]. by intros _.
Qed.
End preserves.

Section locals.
Context {L : Type} (R : relation state) `{!PreOrder R}.

Lemma on_globals_preorder : PreOrder (on_globals (L := L) R).
Proof.
  split.
  - intros [l st]. unfold on_globals. done.
  - intros [l1 st1] [l2 st2] [l3 st3]. unfold on_globals. simpl.
    intros. by etrans.
Qed.

#[local] Existing Instance on_globals_preorder.

Lemma preserves_globally {A} (m : M state A) :
  preserves R m → preserves (on_globals (L := L) R) (globally m).
Proof.
  intros Hm [l st]. unfold on_globals, globally. specialize (Hm st).
  by destruct (m st) as [r st'].
Qed.
End locals.

#[global] Existing Instance on_globals_preorder.

Lemma preserves_append {B} (R : relation state) `{!PreOrder R} (x : B) :
  preserves (on_globals R) (append x).
Proof. intros [l st]. unfold on_globals. simpl. reflexivity. Qed.

Lemma preserves_with_results {B A} (R : relation state)
    (m : M (list B * state) A) :
  preserves (on_globals R) m → preserves R (with_results m).
Proof.
  intros Hm st. unfold with_results. specialize (Hm ([], st)).
  unfold on_globals in Hm. by destruct (m ([], st)) as [r [l st']].
Qed.

(** * What the steps of the program keep *)

Section frames.
Context {world : Externals}.

Lemma bars_kept_refl h : bars_kept h h.
Proof. intros r d Hd. by exists d. Qed.

Lemma bars_kept_trans h1 h2 h3 :
  bars_kept h1 h2 → bars_kept h2 h3 → bars_kept h1 h3.
Proof.
  intros H12 H23 r d Hd.
  destruct (H12 r d Hd) as (d' & Hd' & Hi & Hc & Hcur).
  destruct (H23 r d' Hd') as (d'' & Hd'' & Hi' & Hc' & Hcur').
  exists d''. split; [done|]. split; [congruence|]. split.
  - intros name Hn. rewrite Hc', Hc; done.
  - intros Hd0. specialize (Hcur Hd0). subst d'. by apply Hcur'.
Qed.

Lemma bars_kept_alloc h d : bars_kept h (h ++ [d]).
Proof.
  intros r d0 Hd0. exists d0. split; [|done]. by apply lookup_app_l_Some.
Qed.

Lemma bars_kept_add_rsi h r d close :
  h !! r = Some d → columns d !! "Close" = Some close →
  bars_kept h (<[r := set_col d "rsi" (rsi_indicator close rsi_period)]> h).
Proof.
  intros Hd Hclose r' d' Hd'. destruct (decide (r' = r)) as [->|Hne].
  - assert (d' = d) as -> by congruence. eexists. split.
    { apply list_lookup_insert_eq. by eapply lookup_lt_Some. }
    split; [done|]. split.
    + intros name Hn. simpl. by rewrite lookup_insert_ne.
    + intros (close' & Hc' & Hr').
      assert (close' = close) as -> by congruence.
      destruct d as [ix cols]. unfold set_col. simpl in *. f_equal.
      by apply insert_id.
  - exists d'. split; [|done]. by rewrite list_lookup_insert_ne.
Qed.

Lemma frame_preorder : PreOrder frame.
Proof.
  split.
  - intros st. split; [done|apply bars_kept_refl|done..].
  - intros st1 st2 st3 [] []. split.
    + congruence.
    + by eapply bars_kept_trans.
    + by etrans.
    + by etrans.
Qed.

#[local] Existing Instance frame_preorder.

Lemma quiet_preorder t : PreOrder (quiet t).
Proof.
  split.
  - intros st. split; [reflexivity|done].
  - intros st1 st2 st3 [F12 Q12] [F23 Q23]. split; [by etrans|].
    intros s Hs. by rewrite Q23, Q12.
Qed.

#[local] Existing Instance quiet_preorder.

Lemma evolves_preorder : PreOrder evolves.
Proof.
  split.
  - intros st. split; [reflexivity|done].
  - intros st1 st2 st3 [F12 Q12] [F23 Q23]. split; [by etrans|].
    intros s [v Hs]. rewrite Q23, Q12; [done|by exists v|].
    exists v. eapply lookup_weaken; [done|]. apply F12.
Qed.

#[local] Existing Instance evolves_preorder.

Lemma frame_same st st' :
  clock st' = clock st → heap st' = heap st →
  download_data_memo st' = download_data_memo st →
  get_preprocessed_data_memo st' = get_preprocessed_data_memo st →
  frame st st'.
Proof.
  intros Hc Hh Hd Hp. split; [done| |by rewrite Hd|by rewrite Hp].
  rewrite Hh. apply bars_kept_refl.
Qed.

Lemma fetches_log_fetch s t st :
  s ≠ t → fetches s (log_fetch t st) = fetches s st.
Proof.
  intros Hne. unfold fetches, log_fetch. simpl.
  rewrite filter_app, filter_cons_False, filter_nil, app_nil_r; done.
Qed.

(** ** [download_data] *)

Lemma fetch_quiet t : preserves (quiet t) (fetch t).
Proof.
  unfold fetch. keep preserves_bind; [keep preserves_gets|]. intros today.
  keep preserves_bind.
  { keep preserves_modify. intros st. split; [by apply frame_same|].
    intros s Hs. by apply fetches_log_fetch. }
  intros _. keep preserves_bind; [keep preserves_lift|]. intros d.
  intros st. split; [|done].
  split; [done|apply bars_kept_alloc|done..].
Qed.

Lemma download_data_body_quiet t : preserves (quiet t) (download_data_body t).
Proof.
  unfold download_data_body.
  keep preserves_bind; [keep preserves_gets|]. intros today.
  keep preserves_bind; [keep preserves_gets|]. intros cache_date.
  keep preserves_bind.
  { case_bool_decide; [|keep preserves_ret].
    keep preserves_modify. intros st. split; [by apply frame_same|done]. }
  intros _. keep preserves_bind; [keep preserves_gets|]. intros store.
  destruct (store !! t) as [data|]; [keep preserves_ret|].
  keep preserves_bind; [apply fetch_quiet|]. intros data.
  keep preserves_bind.
  { keep preserves_unchanged. intros st. unfold deref.
    by destruct (heap st !! data). }
  intros d. destruct (df_empty d); [keep preserves_raise|].
  keep preserves_bind; [|intros _; keep preserves_ret].
  keep preserves_modify. intros st. split; [by apply frame_same|done].
Qed.

Lemma lru_cache_run {A} (memo : state → gmap string A) set_memo f key st :
  lru_cache memo set_memo f key st
  = match memo st !! key with
    | Some v => (Ok v, st)
    | None =>
        match f key st with
        | (Ok v, st') => (Ok v, set_memo (<[key := v]> (memo st')) st')
        | (Err e, st') => (Err e, st')
        end
    end.
Proof.
  unfold lru_cache, mbind, M_bind, gets. simpl.
  destruct (memo st !! key); [done|].
  by destruct (f key st) as [[v|e] st'].
Qed.

Lemma insert_after_miss {A} (m m' : gmap string A) key v :
  m !! key = None → m ⊆ m' → m ⊆ <[key := v]> m'.
Proof.
  intros Hmiss Hsub. apply map_subseteq_spec. intros k x Hk.
  assert (k ≠ key) by congruence.
  rewrite lookup_insert_ne by done. by eapply lookup_weaken.
Qed.

Lemma download_data_evolves t : preserves evolves (download_data t).
Proof.
  intros st. unfold download_data. rewrite lru_cache_run.
  destruct (download_data_memo st !! t) as [v|] eqn:Hmiss; [reflexivity|].
  destruct (download_data_body_quiet t st) as [[Hc Hh Hd Hp] Hq].
  destruct (download_data_body t st) as [[v|e] st']; simpl in *.
  - split.
    + split; [done..|by apply insert_after_miss|done].
    + intros s [w Hs]. apply Hq. congruence.
  - split; [done|]. intros s [w Hs]. apply Hq. congruence.
Qed.

(** A memoized download is returned as it is, whatever the day. *)
Lemma download_data_hit t r st :
  download_data_memo st !! t = Some r → download_data t st = (Ok r, st).
Proof. intros Hr. unfold download_data. by rewrite lru_cache_run, Hr. Qed.

Lemma download_data_memoizes t r st :
  (download_data t st).1 = Ok r →
  download_data_memo (download_data t st).2 !! t = Some r.
Proof.
  unfold download_data. rewrite lru_cache_run.
  destruct (download_data_memo st !! t) as [v|] eqn:Hhit.
  - simpl. by intros [= ->].
  - destruct (download_data_body t st) as [[v|e] st']; simpl; [|done].
    intros [= ->]. apply lookup_insert_eq.
Qed.

(** ** [add_rsi] and the pipeline *)

Lemma add_rsi_run data period st :
  add_rsi data period st
  = match heap st !! data with
    | None => (Err Dangling, st)
    | Some d =>
        match columns d !! "Close" with
        | None => (Err (KeyError "Close"), st)
        | Some close =>
            (Ok data,
             set_heap (<[data := set_col d "rsi" (rsi_indicator close period)]>
                         (heap (log_rsi data st)))
                      (log_rsi data st))
        end
    end.
Proof.
  unfold add_rsi, mbind, M_bind, deref, lift, col. simpl.
  destruct (heap st !! data) as [d|]; [|done].
  by destruct (columns d !! "Close").
Qed.

Lemma add_rsi_evolves data : preserves evolves (add_rsi data rsi_period).
Proof.
  intros st. rewrite add_rsi_run.
  destruct (heap st !! data) as [d|] eqn:Hd; [|reflexivity].
  destruct (columns d !! "Close") as [close|] eqn:Hc; [|reflexivity].
  simpl. split; [|done]. split; [done| |done..]. simpl.
  by apply bars_kept_add_rsi.
Qed.

Lemma pipeline_unchanged data st : (pipeline data st).2 = st.
Proof.
  unfold pipeline, mbind, M_bind, deref, lift.
  destruct (heap st !! data) as [d|]; [|done].
  destruct (col d "rsi") as [rsi|]; [|done].
  by destruct (find_pivot_lows rsi pivot_lookback pivot_lookback).
Qed.

(** ** [get_preprocessed_data] *)

Lemma get_preprocessed_data_body_evolves t :
  preserves evolves (get_preprocessed_data_body t).
Proof.
  unfold get_preprocessed_data_body.
  keep preserves_bind; [apply download_data_evolves|]. intros data.
  keep preserves_bind; [apply add_rsi_evolves|]. intros data'.
  keep preserves_bind; [|intros; keep preserves_ret].
  keep preserves_unchanged. apply pipeline_unchanged.
Qed.

Lemma get_preprocessed_data_evolves t :
  preserves evolves (get_preprocessed_data t).
Proof.
  intros st. unfold get_preprocessed_data. rewrite lru_cache_run.
  destruct (get_preprocessed_data_memo st !! t) as [v|] eqn:Hmiss;
    [reflexivity|].
  destruct (get_preprocessed_data_body_evolves t st) as [[Hc Hh Hd Hp] Hq].
  destruct (get_preprocessed_data_body t st) as [[v|e] st']; simpl in *.
  - split; [|done]. split; [done..|]. by apply insert_after_miss.
  - by split.
Qed.

Lemma get_preprocessed_data_hit t v st :
  get_preprocessed_data_memo st !! t = Some v →
  get_preprocessed_data t st = (Ok v, st).
Proof. intros Hv. unfold get_preprocessed_data. by rewrite lru_cache_run, Hv. Qed.

(** ** The scans *)

Lemma deref_unchanged data st : (deref data st).2 = st.
Proof. unfold deref. by destruct (heap st !! data). Qed.

Lemma is_nse_trading_day_unchanged check_date st :
  (is_nse_trading_day check_date st).2 = st.
Proof.
  unfold is_nse_trading_day, mbind, M_bind.
  destruct check_date as [d|]; simpl; by case_match.
Qed.

Lemma is_nse_trading_day_never_raises check_date :
  never_raises (is_nse_trading_day check_date).
Proof.
  intros st. unfold is_nse_trading_day, mbind, M_bind.
  destruct check_date as [d|]; simpl; case_match; eauto.
Qed.

Lemma scan_symbol_today_evolves symbol :
  preserves (on_globals evolves) (scan_symbol_today symbol).
Proof.
  unfold scan_symbol_today.
  keep preserves_try_except; [|intros; keep preserves_ret].
  keep preserves_bind.
  { keep preserves_globally. apply download_data_evolves. }
  intros data. keep preserves_bind.
  { keep preserves_globally. apply add_rsi_evolves. }
  intros data'. keep preserves_bind.
  { keep preserves_globally. keep preserves_unchanged.
    apply pipeline_unchanged. }
  intros divergences. keep preserves_for_M. intros idx.
  keep preserves_bind.
  { keep preserves_globally. keep preserves_unchanged. apply deref_unchanged. }
  intros d. keep preserves_bind; [keep preserves_lift|]. intros index_date.
  keep preserves_bind.
  { keep preserves_globally. by keep preserves_unchanged. }
  intros [|]; [|keep preserves_ret].
  keep preserves_bind; [keep preserves_lift|]. intros result.
  keep preserves_append.
Qed.

Lemma scan_for_today_divergences_evolves :
  preserves evolves scan_for_today_divergences.
Proof.
  unfold scan_for_today_divergences. keep preserves_bind.
  { keep preserves_unchanged. apply is_nse_trading_day_unchanged. }
  intros [|]; simpl; [|keep preserves_ret].
  apply preserves_with_results. keep preserves_bind.
  - keep preserves_for_M. apply scan_symbol_today_evolves.
  - intros _. by keep preserves_unchanged.
Qed.

Lemma scan_symbol_date_evolves target_date use_next_open is_target_today symbol :
  preserves (on_globals evolves)
    (scan_symbol_date target_date use_next_open is_target_today symbol).
Proof.
  unfold scan_symbol_date.
  keep preserves_try_except; [|intros; keep preserves_ret].
  keep preserves_bind.
  { keep preserves_globally. apply get_preprocessed_data_evolves. }
  intros [data divergences]. keep preserves_for_M. intros idx.
  keep preserves_bind.
  { keep preserves_globally. keep preserves_unchanged. apply deref_unchanged. }
  intros d. keep preserves_bind; [keep preserves_lift|]. intros index_date.
  case_bool_decide; [|keep preserves_ret].
  keep preserves_bind; [keep preserves_lift|]. intros result.
  keep preserves_append.
Qed.

Lemma get_bullish_divergence_results_evolves target_date symbols
    use_next_open :
  preserves evolves
    (get_bullish_divergence_results target_date symbols None use_next_open).
Proof.
  unfold get_bullish_divergence_results. apply preserves_with_results.
  keep preserves_bind.
  { keep preserves_globally. keep preserves_gets. }
  intros today. keep preserves_bind.
  - keep preserves_for_M. intros [i symbol]. unfold scan_step_date.
    keep preserves_bind.
    + apply scan_symbol_date_evolves.
    + intros _. keep preserves_ret.
  - intros _. by keep preserves_unchanged.
Qed.

Lemma run_call_evolves c st : evolves st (run_call c st).
Proof.
  destruct c; simpl.
  - apply download_data_evolves.
  - apply add_rsi_evolves.
  - apply get_preprocessed_data_evolves.
  - apply scan_for_today_divergences_evolves.
  - apply get_bullish_divergence_results_evolves.
Qed.

Lemma run_calls_evolves cs st : evolves st (run_calls cs st).
Proof.
  revert st. induction cs as [|c cs IH]; intros st; [reflexivity|].
  simpl. etrans; [apply run_call_evolves|apply IH].
Qed.
End frames.

#[global] Existing Instance frame_preorder.
#[global] Existing Instance quiet_preorder.
#[global] Existing Instance evolves_preorder.


(** * C3, C6, C9: the caches *)

Section caches.
Context {world : Externals}.

Lemma get_preprocessed_data_memoizes symbol v st :
  memo_consistent st →
  (get_preprocessed_data symbol st).1 = Ok v →
  get_preprocessed_data_memo (get_preprocessed_data symbol st).2 !! symbol
  = Some v
  ∧ is_Some (download_data_memo (get_preprocessed_data symbol st).2 !! symbol).
Proof.
  intros Hcons. unfold get_preprocessed_data. rewrite lru_cache_run.
  destruct (get_preprocessed_data_memo st !! symbol) as [w|] eqn:Hhit.
  - simpl. intros [= ->]. split; [done|]. apply Hcons. by rewrite Hhit.
  - unfold get_preprocessed_data_body, mbind, M_bind.
    pose proof (λ r, download_data_memoizes symbol r st) as Hdl.
    destruct (download_data symbol st) as [[data|e] st1]; [|done].
    specialize (Hdl data eq_refl). simpl in Hdl.
    pose proof (add_rsi_evolves data st1) as [[_ _ Hkeep _] _].
    destruct (add_rsi data rsi_period st1) as [[data'|e] st2]; [|done].
    pose proof (pipeline_unchanged data' st2) as Hsame.
    destruct (pipeline data' st2) as [[divergences|e] st3]; [|done].
    simpl in *. subst st3. intros [= <-]. split.
    + apply lookup_insert_eq.
    + exists data. by eapply lookup_weaken.
Qed.
End caches.

(** C6. Within one calendar day, once a query for a symbol
    has succeeded, every further query for that symbol, after any run of
    calls, returns the memoized result and leaves the whole state as it
    is (no call to the provider, no oscillator computation), and the
    provider has not been called again for that symbol in between. *)
Theorem memoized_after_success {world : Externals} (st : state)
    (symbol : string) (v : ref * list Z) (calls : list call) :
  memo_consistent st →
  (get_preprocessed_data symbol st).1 = Ok v →
  let st1 := (get_preprocessed_data symbol st).2 in
  let st2 := run_calls calls st1 in
  clock st2 = clock st1
  ∧ get_preprocessed_data symbol st2 = (Ok v, st2)
  ∧ (∃ data, download_data symbol st2 = (Ok data, st2))
  ∧ fetches symbol st2 = fetches symbol st1.
Proof.
  intros Hcons Hok st1 st2.
  destruct (get_preprocessed_data_memoizes symbol v st Hcons Hok)
    as [Hv [data Hdata]]. fold st1 in Hv, Hdata.
  destruct (run_calls_evolves calls st1) as [[Hclock _ Hdl Hpre] Hquiet].
  fold st2 in Hclock, Hdl, Hpre, Hquiet.
  split; [done|]. split; [|split].
  - apply get_preprocessed_data_hit. by eapply lookup_weaken.
  - exists data. apply download_data_hit. by eapply lookup_weaken.
  - apply Hquiet. by exists data.
Qed.

Lemma memoized_after_success_witness :
  let st1 := (get_preprocessed_data (world := sample_world) "AAA.NS"
                (initial_state 739001)).2 in
  let st2 := run_calls (world := sample_world)
               [Call_scan_for_today_divergences;
                Call_get_bullish_divergence_results 739001 None false;
                Call_download_data "AAA.NS"] st1 in
  clock st2 = clock st1
  ∧ get_preprocessed_data (world := sample_world) "AAA.NS" st2
    = (Ok (0%nat, []), st2)
  ∧ (∃ data, download_data (world := sample_world) "AAA.NS" st2
             = (Ok data, st2))
  ∧ fetches "AAA.NS" st2 = fetches "AAA.NS" st1.
Proof.
  apply (memoized_after_success (world := sample_world)
           (initial_state 739001) "AAA.NS" (0%nat, [])).
  - intros s [v Hv]. simpl in Hv. by rewrite lookup_empty in Hv.
  - vm_compute. reflexivity.
Defined.

(** C6 does not hold for a symbol without bars: a fetch that finds none
    is not memoized, so two queries on the same day call the provider
    twice. *)
Lemma failed_fetch_is_repeated :
  let st1 := run_calls (world := sample_world)
               [Call_get_preprocessed_data "NONE.NS"] (initial_state 739001) in
  let st2 := run_calls (world := sample_world)
               [Call_get_preprocessed_data "NONE.NS"] st1 in
  clock st1 = 739001 ∧ clock st2 = 739001
  ∧ fetch_log st1 = ["NONE.NS"]
  ∧ fetch_log st2 = ["NONE.NS"; "NONE.NS"].
Proof. vm_compute. done. Qed.

(** C9. Through any run of calls, a frame held by the cache
    stays the frame held for its symbol and keeps its index and every
    column but the oscillator column; once its oscillator column is in
    place the frame does not change at all. *)
Theorem cached_bars_kept {world : Externals} (calls : list call) (st : state)
    (symbol : string) (data : ref) (d : DataFrame) :
  download_data_memo st !! symbol = Some data →
  heap st !! data = Some d →
  let st' := run_calls calls st in
  download_data_memo st' !! symbol = Some data
  ∧ ∃ d', heap st' !! data = Some d'
          ∧ index d' = index d
          ∧ (∀ name, name ≠ "rsi" → columns d' !! name = columns d !! name)
          ∧ (rsi_current d → d' = d).
Proof.
  intros Hmemo Hd st'.
  destruct (run_calls_evolves calls st) as [[_ Hheap Hdl _] _].
  fold st' in Hheap, Hdl. split.
  - by eapply lookup_weaken.
  - by apply Hheap.
Qed.

Lemma cached_bars_kept_witness :
  let st := (download_data (world := sample_world) "AAA.NS"
               (initial_state 739001)).2 in
  let st' := run_calls (world := sample_world)
               [Call_get_preprocessed_data "AAA.NS";
                Call_scan_for_today_divergences] st in
  download_data_memo st' !! "AAA.NS" = Some 0%nat
  ∧ ∃ d', heap st' !! 0%nat = Some d'
          ∧ index d' = [739000; 739001]
          ∧ columns d' !! "Close" = Some (F64.of_Z <$> [739001; 739003]).
Proof.
  intros st st'.
  destruct (cached_bars_kept (world := sample_world)
              [Call_get_preprocessed_data "AAA.NS";
               Call_scan_for_today_divergences] st "AAA.NS" 0%nat
              (bars [739000; 739001] [739001; 739002] [739003; 739004]
                    [738999; 739000] [739001; 739003] [1000; 2000]))
    as (Hmemo & d' & Hd' & Hindex & Hcols & _).
  - reflexivity.
  - reflexivity.
  - split; [exact Hmemo|]. exists d'. split; [exact Hd'|].
    split; [exact Hindex|]. by rewrite Hcols.
Defined.

(** C9 does not hold for the oscillator column: the pipeline writes it
    into the cached frame itself, so the frame read after the fetch and
    the frame read after the pipeline do not have the same columns. *)
Lemma cached_frame_gains_a_column :
  let st1 := run_calls (world := sample_world)
               [Call_download_data "AAA.NS"] (initial_state 739001) in
  let st2 := run_calls (world := sample_world)
               [Call_get_preprocessed_data "AAA.NS"] st1 in
  download_data_memo st1 !! "AAA.NS" = Some 0%nat
  ∧ download_data_memo st2 !! "AAA.NS" = Some 0%nat
  ∧ clock st2 = clock st1
  ∧ (d ← heap st1 !! 0%nat; Some (columns d !! "rsi")) = Some None
  ∧ (d ← heap st2 !! 0%nat; Some (columns d !! "rsi"))
    = Some (Some [F64.nan; F64.nan]).
Proof. vm_compute. done. Qed.

(** C3 at its failing input: the symbol is queried on one day and again
    on the next.  The second query calls the provider no more and returns
    the frame of the day before, although the provider has newer bars. *)
Theorem stale_entry_on_next_day :
  let st1 := (get_preprocessed_data (world := sample_world) "AAA.NS"
                (initial_state 739001)).2 in
  let next_day := set_clock 739002 st1 in
  let second := get_preprocessed_data (world := sample_world) "AAA.NS"
                  next_day in
  fetch_log st1 = ["AAA.NS"]
  ∧ second.1 = Ok (0%nat, [])
  ∧ fetch_log second.2 = ["AAA.NS"]
  ∧ (index <$> heap second.2 !! 0%nat) = Some [739000; 739001]
  ∧ (index <$> match history (Externals := sample_world) "AAA.NS" 739002 with
               | Ok d => Some d
               | Err _ => None
               end) = Some [739001; 739002]
  ∧ (download_data (world := sample_world) "AAA.NS" next_day).1 = Ok 0%nat
  ∧ fetch_log (download_data (world := sample_world) "AAA.NS" next_day).2
    = ["AAA.NS"].
Proof. vm_compute. done. Qed.


(** * C8: a scan outlives the failure of a symbol *)

Section totality.
Context {Σ : Type}.

Lemma never_raises_ret {A} (a : A) : never_raises (Σ := Σ) (mret a).
Proof. intros st. by exists a. Qed.

Lemma never_raises_bind {A B} (m : M Σ A) (f : A → M Σ B) :
  never_raises m → (∀ a, never_raises (f a)) → never_raises (m ≫= f).
Proof.
  intros Hm Hf st. unfold mbind, M_bind. destruct (Hm st) as [a Ha].
  destruct (m st) as [[a'|e] st']; simpl in Ha; [|done]. apply Hf.
Qed.

Lemma never_raises_try_except {A} (body : M Σ A) (handler : exn → M Σ A) :
  (∀ e, never_raises (handler e)) → never_raises (try_except body handler).
Proof.
  intros Hh st. unfold try_except.
  destruct (body st) as [[a|e] st']; [by exists a|apply Hh].
Qed.

Lemma for_M_cons_run {A} (x : A) (l : list A) (body : A → M Σ unit) st :
  for_M (x :: l) body st
  = match body x st with
    | (Ok _, st') => for_M l body st'
    | (Err e, st') => (Err e, st')
    end.
Proof. reflexivity. Qed.

Lemma never_raises_for_M {A} (l : list A) (body : A → M Σ unit) :
  (∀ x, never_raises (body x)) → never_raises (for_M l body).
Proof.
  intros Hb. induction l as [|x l IH]; simpl.
  - apply never_raises_ret.
  - apply never_raises_bind; [apply Hb|]. by intros _.
Qed.
End totality.

Lemma never_raises_globally {L A} (m : M state A) :
  never_raises m → never_raises (globally (L := L) m).
Proof.
  intros Hm [l st]. unfold globally. destruct (Hm st) as [a Ha].
  exists a. by destruct (m st).
Qed.

Section appending.
Context {B : Type}.
Implicit Types (acc : list B) (st : state).

Lemma appends_ret {A} (a : A) : appends (B := B) (mret a).
Proof. intros acc st. simpl. unfold mret, M_ret. by rewrite app_nil_r. Qed.

Lemma appends_lift {A} (r : res A) : appends (B := B) (lift r).
Proof. intros acc st. unfold lift. simpl. by rewrite app_nil_r. Qed.

Lemma appends_globally {A} (m : M state A) : appends (B := B) (globally m).
Proof.
  intros acc st. unfold globally. destruct (m st) as [r st']. simpl.
  by rewrite app_nil_r.
Qed.

Lemma appends_append (x : B) : appends (append x).
Proof. by intros acc st. Qed.

Lemma appends_bind {A C} (m : M (list B * state) A)
    (f : A → M (list B * state) C) :
  appends m → (∀ a, appends (f a)) → appends (m ≫= f).
Proof.
  intros Hm Hf acc st. unfold mbind, M_bind. rewrite (Hm acc st).
  destruct (m ([], st)) as [[a|e] [new st']]; simpl; [|done].
  rewrite (Hf a (acc ++ new) st'), (Hf a new st').
  destruct (f a ([], st')) as [r [new' st'']]. simpl. by rewrite app_assoc.
Qed.

Lemma appends_try_except {A} (body : M (list B * state) A)
    (handler : exn → M (list B * state) A) :
  appends body → (∀ e, appends (handler e)) →
  appends (try_except body handler).
Proof.
  intros Hb Hh acc st. unfold try_except. rewrite (Hb acc st).
  destruct (body ([], st)) as [[a|e] [new st']]; simpl; [done|].
  rewrite (Hh e (acc ++ new) st'), (Hh e new st').
  destruct (handler e ([], st')) as [r [new' st'']]. simpl.
  by rewrite app_assoc.
Qed.

Lemma appends_for_M {A} (l : list A) (body : A → M (list B * state) unit) :
  (∀ x, appends (body x)) → appends (for_M l body).
Proof.
  intros Hb. induction l as [|x l IH]; simpl.
  - apply appends_ret.
  - apply appends_bind; [apply Hb|]. by intros _.
Qed.

(** A loop whose body never raises and only appends: the loop over a
    concatenation is the loop over the first part followed by the loop
    over the second, and the items add up. *)
Lemma for_M_app {A} (l1 l2 : list A) (body : A → M (list B * state) unit) st :
  (∀ x, never_raises (body x)) → (∀ x, appends (body x)) →
  for_M (l1 ++ l2) body ([], st)
  = (Ok tt,
     (items_of (for_M l1 body) st
      ++ items_of (for_M l2 body) (state_of (for_M l1 body) st),
      state_of (for_M l2 body) (state_of (for_M l1 body) st))).
Proof.
  intros Ht Ha. unfold items_of, state_of.
  assert (Hacc : ∀ l acc st0,
    for_M l body (acc, st0)
    = (Ok tt, (acc ++ (for_M l body ([], st0)).2.1,
               (for_M l body ([], st0)).2.2))).
  { intros l acc st0. rewrite (appends_for_M l body Ha acc st0). f_equal.
    destruct (never_raises_for_M l body Ht ([], st0)) as [[] ->]. done. }
  revert st. induction l1 as [|x l1 IH]; intros st; simpl.
  - apply (Hacc l2 [] st).
  - unfold mbind, M_bind.
    destruct (Ht x ([], st)) as [[] Hx].
    destruct (body x ([], st)) as [r [new st']]. simpl in Hx. subst r.
    rewrite (Hacc (l1 ++ l2) new st'), (Hacc l1 new st'), IH. simpl.
    by rewrite app_assoc.
Qed.
End appending.

Section scans.
Context {world : Externals}.

Lemma scan_symbol_today_never_raises symbol :
  never_raises (scan_symbol_today symbol).
Proof.
  apply never_raises_try_except. intros e. apply never_raises_ret.
Qed.

Lemma scan_symbol_today_appends symbol : appends (scan_symbol_today symbol).
Proof.
  unfold scan_symbol_today.
  apply appends_try_except; [|intros; apply appends_ret].
  apply appends_bind; [apply appends_globally|]. intros data.
  apply appends_bind; [apply appends_globally|]. intros data'.
  apply appends_bind; [apply appends_globally|]. intros divergences.
  apply appends_for_M. intros idx.
  apply appends_bind; [apply appends_globally|]. intros d.
  apply appends_bind; [apply appends_lift|]. intros index_date.
  apply appends_bind; [apply appends_globally|].
  intros [|]; [|apply appends_ret].
  apply appends_bind; [apply appends_lift|]. intros result.
  apply appends_append.
Qed.

Lemma scan_symbol_today_skips symbol e st :
  (download_data symbol st).1 = Err e →
  scan_symbol_today symbol ([], st) = (Ok tt, ([], (download_data symbol st).2)).
Proof.
  intros He. unfold scan_symbol_today, try_except, mbind, M_bind, globally.
  by destruct (download_data symbol st) as [[data|e'] st'].
Qed.

Lemma scan_step_date_never_raises target_date use_next_open is_target_today
    progress_callback total item :
  callback_never_raises progress_callback →
  never_raises
    (scan_step_date target_date use_next_open is_target_today
                    progress_callback total item).
Proof.
  intros Hcb. destruct item as [i symbol]. unfold scan_step_date.
  apply never_raises_bind.
  - apply never_raises_try_except. intros e. apply never_raises_ret.
  - intros _. destruct progress_callback as [callback|].
    + apply never_raises_globally. by apply Hcb.
    + apply never_raises_ret.
Qed.

Lemma scan_step_date_appends target_date use_next_open is_target_today
    progress_callback total item :
  appends
    (scan_step_date target_date use_next_open is_target_today
                    progress_callback total item).
Proof.
  destruct item as [i symbol]. unfold scan_step_date, scan_symbol_date.
  apply appends_bind.
  - apply appends_try_except; [|intros; apply appends_ret].
    apply appends_bind; [apply appends_globally|]. intros [data divergences].
    apply appends_for_M. intros idx.
    apply appends_bind; [apply appends_globally|]. intros d.
    apply appends_bind; [apply appends_lift|]. intros index_date.
    case_bool_decide; [|apply appends_ret].
    apply appends_bind; [apply appends_lift|]. intros result.
    apply appends_append.
  - intros _. destruct progress_callback; [apply appends_globally|].
    apply appends_ret.
Qed.

Lemma scan_step_date_skips target_date use_next_open is_target_today
    progress_callback total i symbol e st :
  callback_never_raises progress_callback →
  (get_preprocessed_data symbol st).1 = Err e →
  scan_step_date target_date use_next_open is_target_today progress_callback
                 total (i, symbol) ([], st)
  = (Ok tt,
     ([], after_callback progress_callback i total symbol
            (get_preprocessed_data symbol st).2)).
Proof.
  intros Hcb He.
  unfold scan_step_date, scan_symbol_date, try_except, mbind, M_bind, globally,
    after_callback.
  destruct (get_preprocessed_data symbol st) as [[v|e'] st']; [done|]. simpl.
  destruct progress_callback as [callback|]; [|done].
  destruct (Hcb callback eq_refl (i + 1) total symbol st') as [[] Hok].
  destruct (callback (i + 1) total symbol st') as [r st'']. simpl in *.
  by subst r.
Qed.
End scans.


(** C8. Neither scan raises, whatever happens to a symbol (for the scan
    by date: as long as the progress callback, which runs outside the
    [try], does not raise).  Each scan returns the items gathered by its
    loop over the symbols.  The loop over a universe cut in two gathers
    the items of the first part followed by the items of the second,
    whatever failed in either; and when the download (resp. the memoized
    pipeline) of a symbol raises, the loop gathers the items of the
    symbols before it, nothing for it, and goes on to gather the items of
    the symbols after it from the state the failure left. *)
Theorem scans_skip_failed_symbols {world : Externals} :
  (∀ st, ∃ rs, (scan_for_today_divergences st).1 = Ok rs)
  ∧ (∀ st, (is_nse_trading_day None st).1 = Ok true →
       scan_for_today_divergences st
       = (Ok (items_of (for_M UNIQUE_COMPANIES scan_symbol_today) st),
          state_of (for_M UNIQUE_COMPANIES scan_symbol_today) st))
  ∧ (∀ before after st,
       let st1 := state_of (for_M before scan_symbol_today) st in
       for_M (before ++ after) scan_symbol_today ([], st)
       = (Ok tt,
          (items_of (for_M before scan_symbol_today) st
           ++ items_of (for_M after scan_symbol_today) st1,
           state_of (for_M after scan_symbol_today) st1)))
  ∧ (∀ before symbol after st e,
       let st1 := state_of (for_M before scan_symbol_today) st in
       (download_data symbol st1).1 = Err e →
       let st2 := (download_data symbol st1).2 in
       for_M (before ++ symbol :: after) scan_symbol_today ([], st)
       = (Ok tt,
          (items_of (for_M before scan_symbol_today) st
           ++ items_of (for_M after scan_symbol_today) st2,
           state_of (for_M after scan_symbol_today) st2)))
  ∧ (∀ target_date symbols progress_callback use_next_open st,
       callback_never_raises progress_callback →
       let step :=
         scan_step_date target_date use_next_open
           (bool_decide (target_date = clock st)) progress_callback
           (len (chosen_symbols symbols)) in
       get_bullish_divergence_results target_date symbols progress_callback
         use_next_open st
       = (Ok (items_of (for_M (enumerate (chosen_symbols symbols)) step) st),
          state_of (for_M (enumerate (chosen_symbols symbols)) step) st))
  ∧ (∀ target_date use_next_open is_target_today progress_callback total
       before after st,
       callback_never_raises progress_callback →
       let step :=
         scan_step_date target_date use_next_open is_target_today
           progress_callback total in
       let st1 := state_of (for_M before step) st in
       for_M (before ++ after) step ([], st)
       = (Ok tt,
          (items_of (for_M before step) st ++ items_of (for_M after step) st1,
           state_of (for_M after step) st1)))
  ∧ (∀ target_date use_next_open is_target_today progress_callback total
       before i symbol after st e,
       callback_never_raises progress_callback →
       let step :=
         scan_step_date target_date use_next_open is_target_today
           progress_callback total in
       let st1 := state_of (for_M before step) st in
       (get_preprocessed_data symbol st1).1 = Err e →
       let st2 := after_callback progress_callback i total symbol
                    (get_preprocessed_data symbol st1).2 in
       for_M (before ++ (i, symbol) :: after) step ([], st)
       = (Ok tt,
          (items_of (for_M before step) st ++ items_of (for_M after step) st2,
           state_of (for_M after step) st2))).
Proof.
  assert (Htoday : ∀ l st,
    for_M l scan_symbol_today ([], st)
    = (Ok tt, (items_of (for_M l scan_symbol_today) st,
               state_of (for_M l scan_symbol_today) st))).
  { intros l st. unfold items_of, state_of.
    destruct (never_raises_for_M l scan_symbol_today
                scan_symbol_today_never_raises ([], st)) as [[] Hok].
    destruct (for_M l scan_symbol_today ([], st)) as [r [items st']].
    simpl in *. by subst r. }
  split; [|split; [|split; [|split; [|split; [|split]]]]].
  - intros st. unfold scan_for_today_divergences, mbind, M_bind.
    destruct (is_nse_trading_day_never_raises None st) as [open Hopen].
    destruct (is_nse_trading_day None st) as [r st']. simpl in Hopen.
    subst r. destruct open; simpl; [|eauto].
    unfold with_results. rewrite Htoday. simpl. eauto.
  - intros st Hopen. unfold scan_for_today_divergences, mbind, M_bind.
    pose proof (is_nse_trading_day_unchanged None st) as Hsame.
    destruct (is_nse_trading_day None st) as [[b|e] st']; simpl in *;
      [|done].
    injection Hopen as ->. subst st'. simpl.
    unfold with_results. by rewrite Htoday.
  - intros before after st st1.
    apply (for_M_app before after scan_symbol_today st
             scan_symbol_today_never_raises scan_symbol_today_appends).
  - intros before symbol after st e st1 He st2.
    rewrite (for_M_app before (symbol :: after) scan_symbol_today st
               scan_symbol_today_never_raises scan_symbol_today_appends).
    fold st1. f_equal.
    assert (Hrest :
      for_M (symbol :: after) scan_symbol_today ([], st1)
      = for_M after scan_symbol_today ([], st2)).
    { rewrite for_M_cons_run.
      by rewrite (scan_symbol_today_skips symbol e st1 He). }
    unfold items_of, state_of. by rewrite Hrest.
  - intros target_date symbols progress_callback use_next_open st Hcb step.
    unfold get_bullish_divergence_results, with_results, mbind, M_bind.
    simpl. fold (chosen_symbols symbols). fold step.
    destruct (never_raises_for_M (enumerate (chosen_symbols symbols)) step)
      with (st := (([] : list (gmap string pyval)), st)) as [[] Hok].
    { intros item. by apply scan_step_date_never_raises. }
    unfold items_of, state_of.
    destruct (for_M (enumerate (chosen_symbols symbols)) step ([], st))
      as [r [items st']]. simpl in *. by subst r.
  - intros target_date use_next_open is_target_today progress_callback total
      before after st Hcb step st1.
    apply (for_M_app before after step st).
    + intros item. by apply scan_step_date_never_raises.
    + intros item. apply scan_step_date_appends.
  - intros target_date use_next_open is_target_today progress_callback total
      before i symbol after st e Hcb step st1 He st2.
    rewrite (for_M_app before ((i, symbol) :: after) step st).
    2:{ intros item. by apply scan_step_date_never_raises. }
    2:{ intros item. apply scan_step_date_appends. }
    fold st1. f_equal.
    assert (Hrest :
      for_M ((i, symbol) :: after) step ([], st1)
      = for_M after step ([], st2)).
    { rewrite for_M_cons_run. unfold step at 1.
      by rewrite (scan_step_date_skips _ _ _ _ _ i symbol e st1 Hcb He). }
    unfold items_of, state_of. by rewrite Hrest.
Qed.

Lemma scans_skip_failed_symbols_witness :
  for_M (["AAA.NS"] ++ "NONE.NS" :: ["BBB.NS"])
        (scan_symbol_today (world := engineered_world))
        ([], initial_state 739008)
  = (Ok tt,
     (items_of (for_M ["AAA.NS"] (scan_symbol_today (world := engineered_world)))
               (initial_state 739008)
      ++ items_of (for_M ["BBB.NS"]
                         (scan_symbol_today (world := engineered_world)))
                  (download_data (world := engineered_world) "NONE.NS"
                     (state_of (for_M ["AAA.NS"]
                                  (scan_symbol_today (world := engineered_world)))
                               (initial_state 739008))).2,
      state_of (for_M ["BBB.NS"] (scan_symbol_today (world := engineered_world)))
               (download_data (world := engineered_world) "NONE.NS"
                  (state_of (for_M ["AAA.NS"]
                               (scan_symbol_today (world := engineered_world)))
                            (initial_state 739008))).2)).
Proof.
  apply (proj1 (proj2 (proj2 (proj2 (scans_skip_failed_symbols
                                       (world := engineered_world)))))
           ["AAA.NS"] "NONE.NS" ["BBB.NS"] (initial_state 739008)
           (ValueError "No data found")).
  vm_compute. reflexivity.
Defined.

(** Both scans on the day of the engineered divergence: the symbol
    without bars is skipped, the two others are reported. *)
Example scans_end_to_end :
  fmap (M := list)
       (λ record : gmap string pyval, (record !! "symbol", record !! "date"))
    <$> (scan_for_today_divergences (world := engineered_world)
           (initial_state 739008)).1
  = Ok [(Some (PyStr "AAA.NS"), Some (PyDate 739008));
        (Some (PyStr "BBB.NS"), Some (PyDate 739008))]
  ∧ fmap (M := list)
         (λ record : gmap string pyval,
            (record !! "Symbol", record !! "Available Future Days"))
      <$> (get_bullish_divergence_results (world := engineered_world) 739008
             None None false (initial_state 739008)).1
    = Ok [(Some (PyStr "AAA.NS"), Some (PyInt 5));
          (Some (PyStr "BBB.NS"), Some (PyInt 5))]
  ∧ fetch_log (scan_for_today_divergences (world := engineered_world)
                 (initial_state 739008)).2
    = ["AAA.NS"; "NONE.NS"; "BBB.NS"].
Proof. vm_compute. done. Qed.


(** * Further properties of the module *)

(** ** [get_tradingview_link] *)

Lemma endswith_spec s suffix :
  endswith s suffix = true ↔ ∃ p, s = p +:+ suffix.
Proof.
  induction s as [|c s IH]; simpl.
  - split.
    + intros [Heq%bool_decide_eq_true|?]%orb_true_iff; [|done].
      by exists EmptyString.
    + intros [p Hp]. destruct p; [|discriminate].
      apply orb_true_iff. left. apply bool_decide_eq_true. exact Hp.
  - split.
    + intros [Heq%bool_decide_eq_true|[p ->]%IH]%orb_true_iff.
      * by exists EmptyString.
      * by exists (String c p).
    + intros [p Hp]. apply orb_true_iff. destruct p as [|c' p].
      * left. apply bool_decide_eq_true. exact Hp.
      * right. apply IH. exists p. by injection Hp.
Qed.

Lemma last_char_app p c t : last_char (p +:+ String c t) = last_char (String c t).
Proof.
  induction p as [|c' p IH]; [done|].
  change (String c' p +:+ String c t) with (String c' (p +:+ String c t)).
  rewrite <-IH. simpl. by destruct p.
Qed.

Lemma before_first_dot_cut a rest :
  dot_free a → before_first_dot (a +:+ "." +:+ rest) = a.
Proof.
  induction a as [|c a IH]; intros Hfree; [done|]. simpl.
  destruct (Ascii.eqb_spec c dot) as [->|Hc].
  - destruct (Hfree EmptyString a). done.
  - f_equal. apply IH. intros p q ->. by destruct (Hfree (String c p) q).
Qed.

Lemma before_first_dot_dot_free s : dot_free (before_first_dot s).
Proof.
  induction s as [|c s IH]; intros p q Hpq; simpl in Hpq.
  - destruct p; discriminate.
  - destruct (Ascii.eqb_spec c dot) as [->|Hc].
    + destruct p; discriminate.
    + destruct p as [|c' p]; simpl in Hpq.
      * injection Hpq as -> _. done.
      * injection Hpq as _ Hpq. by apply (IH p q).
Qed.

(** X1. [get_tradingview_link] returns [None] exactly for a symbol that
    ends neither in ".NS" nor in ".BSE"; a symbol that ends in ".NS" gets
    the exchange NSE, one that ends in ".BSE" gets BSE; and the ticker
    written after the exchange is the text before the first dot of the
    symbol, so it never holds a dot. *)
Theorem get_tradingview_link_spec (s : string) :
  (get_tradingview_link s = None ↔
     (¬ ∃ p, s = p +:+ ".NS") ∧ (¬ ∃ p, s = p +:+ ".BSE"))
  ∧ ((∃ p, s = p +:+ ".NS") →
     get_tradingview_link s
     = Some ("https://www.tradingview.com/chart/?symbol=NSE:"
             +:+ before_first_dot s))
  ∧ ((∃ p, s = p +:+ ".BSE") →
     get_tradingview_link s
     = Some ("https://www.tradingview.com/chart/?symbol=BSE:"
             +:+ before_first_dot s))
  ∧ dot_free (before_first_dot s).
Proof.
  unfold get_tradingview_link.
  pose proof (endswith_spec s ".NS") as HNS.
  pose proof (endswith_spec s ".BSE") as HBSE.
  destruct (endswith s ".NS") eqn:ENS; [|destruct (endswith s ".BSE") eqn:EBSE];
    simpl; (split; [|split; [|split]]);
    try apply before_first_dot_dot_free.
  - split; [done|]. intros [Hno _]. destruct Hno. by apply HNS.
  - done.
  - intros [p ->]. destruct HNS as [[q Hq] _]; [done|].
    exfalso. apply (f_equal last_char) in Hq.
    rewrite !last_char_app in Hq. discriminate.
  - split; [done|]. intros [_ Hno]. destruct Hno. by apply HBSE.
  - intros Hp. apply HNS in Hp. congruence.
  - done.
  - split; [|done]. intros _. split; intros Hp.
    + apply HNS in Hp. congruence.
    + apply HBSE in Hp. congruence.
  - intros Hp. apply HNS in Hp. congruence.
  - intros Hp. apply HBSE in Hp. congruence.
Qed.

(** X2. For a ticker [base] without a dot, whatever follows the first
    dot, the link names [base] alone: ["RELIANCE.NS"] gives
    [NSE:RELIANCE], and so does ["RELIANCE.X.NS"]. *)
Theorem get_tradingview_link_ticker (base rest : string) :
  dot_free base →
  (∃ p, base +:+ "." +:+ rest = p +:+ ".NS") →
  get_tradingview_link (base +:+ "." +:+ rest)
  = Some ("https://www.tradingview.com/chart/?symbol=NSE:" +:+ base).
Proof.
  intros Hfree Hns. apply endswith_spec in Hns.
  unfold get_tradingview_link. rewrite Hns. simpl.
  by rewrite before_first_dot_cut.
Qed.

Lemma get_tradingview_link_ticker_witness :
  get_tradingview_link ("RELIANCE" +:+ "." +:+ "NS")
  = Some ("https://www.tradingview.com/chart/?symbol=NSE:" +:+ "RELIANCE").
Proof.
  apply (get_tradingview_link_ticker "RELIANCE" "NS").
  - change "RELIANCE" with (before_first_dot "RELIANCE").
    apply before_first_dot_dot_free.
  - by exists "RELIANCE".
Defined.


(** ** More on pivots and divergences *)

Lemma lt_asymmetric (x y : float) : F64.lt x y = true → F64.lt y x = false.
Proof.
  unfold F64.lt, SFltb. rewrite (compare_antisym x y).
  by destruct (SFcompare x y) as [[]|].
Qed.

(** X3. Two pivot lows are never close to each other: distinct indices
    returned by [find_pivot_lows] differ by more than the smaller of the
    two window sides. *)
Theorem pivot_lows_are_spaced (series : list float) (left right : Z)
    (pivots : list Z) (i k : Z) :
  0 ≤ left → 0 ≤ right →
  find_pivot_lows series left right = Ok pivots →
  i ∈ pivots → k ∈ pivots → i < k →
  Z.min left right < k - i.
Proof.
  intros Hl Hr Hfind Hi Hk Hik.
  rewrite find_pivot_lows_filter in Hfind by done. injection Hfind as <-.
  apply elem_of_pivots in Hi as (_ & _ & Hright).
  apply elem_of_pivots in Hk as (_ & Hleft & _).
  destruct (decide (Z.min left right < k - i)) as [|Hclose]; [done|].
  exfalso.
  destruct (Hright (k - i)) as (x & y & Hx & Hy & Hxy); [lia|].
  destruct (Hleft (k - i)) as (y' & x' & Hy' & Hx' & Hyx); [lia|].
  replace (i + (k - i)) with k in Hy by lia.
  replace (k - (k - i)) with i in Hx' by lia.
  simplify_eq. apply lt_asymmetric in Hxy. congruence.
Qed.

Lemma pivot_lows_are_spaced_witness :
  Z.min 5 5 < 11 - 5.
Proof.
  apply (pivot_lows_are_spaced engineered_rsi 5 5 [5; 11] 5 11);
    [lia|lia|vm_compute; reflexivity|set_solver|set_solver|lia].
Defined.

Lemma getitem_Ok {A} (s : list A) (i : Z) (x : A) :
  0 ≤ i → getitem s i = Ok x → s !! Z.to_nat i = Some x ∧ i < len s.
Proof.
  intros Hi. unfold getitem.
  destruct (Z.ltb_spec i 0) as [?|_]; [lia|].
  destruct (Z.ltb_spec i 0) as [?|_]; [lia|].
  destruct (Z.leb_spec (len s) i) as [?|?]; simpl; [done|].
  destruct (s !! Z.to_nat i) eqn:E; [|done]. by intros [= ->].
Qed.

Lemma for_invariant {A S} (I : S → Prop) (l : list A) (body : A → S → res S)
    (s0 s : S) :
  I s0 →
  (∀ x s s', x ∈ l → I s → body x s = Ok s' → I s') →
  for_ l body s0 = Ok s → I s.
Proof.
  revert s0. induction l as [|x l IH]; intros s0 H0 Hstep; simpl.
  - by intros [= <-].
  - destruct (body x s0) as [s1|e] eqn:Hb; simpl; [|done].
    apply IH.
    + eapply Hstep; [by left|done..].
    + intros y t t' Hy. apply Hstep. by right.
Qed.

(** Whatever the frame, what [check_bullish_divergence] returns was taken
    from the pivots after the first. *)
Lemma check_bullish_divergence_from_pivots data pivot_lows flags c :
  check_bullish_divergence data pivot_lows = Ok flags → c ∈ flags →
  ∃ i : nat, pivot_lows !! S i = Some c.
Proof.
  intros Hcheck. revert c.
  eapply (for_invariant
            (λ acc : list Z,
               ∀ c, c ∈ acc → ∃ i : nat, pivot_lows !! S i = Some c));
    [| |exact Hcheck].
  { intros c Hc. by apply not_elem_of_nil in Hc. }
  intros i acc acc' Hi%elem_of_range Hacc Hbody c Hc.
  cbv beta in Hbody.
  destruct (getitem pivot_lows i) as [curr|] eqn:Hcurr; simpl in Hbody;
    [|done].
  repeat match type of Hbody with
         | (?m ≫= _) = Ok _ => destruct m; simpl in Hbody; [|done]
         end.
  injection Hbody as <-. case_match; [|by apply Hacc].
  apply elem_of_app in Hc as [Hc|Hc%list_elem_of_singleton]; [by apply Hacc|].
  subst c. apply getitem_Ok in Hcurr as [Hcurr _]; [|lia].
  exists (Z.to_nat (i - 1)).
  by replace (S (Z.to_nat (i - 1))) with (Z.to_nat i) by lia.
Qed.

(** X4. Edge and error behaviour of [check_bullish_divergence]: with
    fewer than two pivots it returns the empty list whatever the frame
    holds; with two pivots or more it raises [KeyError] when the frame
    has no oscillator column, and [IndexError] when the second pivot lies
    past the end of the oscillator column. *)
Theorem check_bullish_divergence_edges (data : DataFrame) :
  check_bullish_divergence data [] = Ok []
  ∧ (∀ p, check_bullish_divergence data [p] = Ok [])
  ∧ (∀ p0 p1 rest,
       columns data !! "rsi" = None →
       check_bullish_divergence data (p0 :: p1 :: rest)
       = Err (KeyError "rsi"))
  ∧ (∀ osc p0 p1 rest,
       columns data !! "rsi" = Some osc → len osc ≤ p1 →
       check_bullish_divergence data (p0 :: p1 :: rest) = Err IndexError).
Proof.
  assert (Hsplit : ∀ (p0 p1 : Z) (rest : list Z),
    range 1 (len (p0 :: p1 :: rest)) = 1 :: range 2 (len (p0 :: p1 :: rest))).
  { intros. unfold range. rewrite seqZ_cons by (unfold len; simpl; lia).
    f_equal. f_equal. lia. }
  assert (Hcurr : ∀ (p0 p1 : Z) (rest : list Z), getitem (p0 :: p1 :: rest) 1 = Ok p1).
  { intros. destruct (getitem_in_range (p0 :: p1 :: rest) 1) as (x & Hx & ->).
    - unfold len. simpl. lia.
    - simpl in Hx. by simplify_eq. }
  assert (Hprev : ∀ (p0 p1 : Z) (rest : list Z),
    getitem (p0 :: p1 :: rest) (1 - 1) = Ok p0).
  { intros.
    destruct (getitem_in_range (p0 :: p1 :: rest) (1 - 1)) as (x & Hx & ->).
    - unfold len. simpl. lia.
    - simpl in Hx. by simplify_eq. }
  split; [done|]. split; [done|]. split.
  - intros p0 p1 rest Hnone. unfold check_bullish_divergence.
    rewrite Hsplit. cbn [for_]. rewrite Hcurr, Hprev. simpl.
    unfold col. by rewrite Hnone.
  - intros osc p0 p1 rest Hosc Hout. unfold check_bullish_divergence.
    rewrite Hsplit. cbn [for_]. rewrite Hcurr, Hprev. simpl.
    unfold col, iloc. rewrite Hosc. simpl.
    assert (getitem osc p1 = Err IndexError) as ->; [|done].
    unfold getitem. pose proof (Zle_0_nat (length osc)). unfold len in *.
    destruct (Z.ltb_spec p1 0) as [?|_]; [lia|].
    destruct (Z.ltb_spec p1 0) as [?|_]; [lia|].
    by destruct (Z.leb_spec (Z.of_nat (length osc)) p1) as [_|?]; [|lia].
Qed.

Lemma check_bullish_divergence_edges_witness :
  check_bullish_divergence engineered_bars [5; 11] = Err (KeyError "rsi")
  ∧ check_bullish_divergence engineered [5; 17] = Err IndexError.
Proof.
  split.
  - by apply (proj1 (proj2 (proj2 (check_bullish_divergence_edges
                                     engineered_bars)))).
  - apply (proj2 (proj2 (proj2 (check_bullish_divergence_edges engineered)))
             engineered_rsi); [reflexivity|vm_compute; discriminate].
Defined.

Lemma pipeline_of_in_range (d : DataFrame) (rsi : list float)
    (divergences : list Z) (idx : Z) :
  columns d !! "rsi" = Some rsi →
  pipeline_of d = Ok divergences →
  idx ∈ divergences →
  pivot_lookback < idx < len rsi - pivot_lookback.
Proof.
  intros Hrsi Hpipe Hidx. unfold pipeline_of, col in Hpipe.
  rewrite Hrsi in Hpipe. simpl in Hpipe.
  rewrite find_pivot_lows_filter in Hpipe by done. simpl in Hpipe.
  destruct (check_bullish_divergence_from_pivots _ _ _ _ Hpipe Hidx)
    as [i Hi].
  set (pivots := filter (λ i, pivot_lowb rsi pivot_lookback pivot_lookback i
                              = true)
                        (range pivot_lookback (len rsi - pivot_lookback)))
    in *.
  assert (Hsorted : StronglySorted Z.lt pivots).
  { apply filter_strongly_sorted, range_sorted. }
  assert (Hin : idx ∈ pivots) by (by eapply list_elem_of_lookup_2).
  apply elem_of_pivots in Hin as (Hrange & _).
  destruct (lookup_lt_is_Some_2 pivots 0) as [first Hfirst].
  { apply lookup_lt_Some in Hi. lia. }
  assert (Hfirst_in : first ∈ pivots) by (by eapply list_elem_of_lookup_2).
  apply elem_of_pivots in Hfirst_in as (Hfirst_range & _).
  assert (first < idx).
  { by apply (strongly_sorted_lookup Z.lt pivots 0 (S i)); [|lia|..]. }
  lia.
Qed.

Lemma pipeline_run (data : ref) (st : state) :
  pipeline data st
  = match heap st !! data with
    | Some d => (pipeline_of d, st)
    | None => (Err Dangling, st)
    end.
Proof.
  unfold pipeline, pipeline_of, mbind, M_bind, deref, lift.
  destruct (heap st !! data) as [d|]; [|done]. simpl.
  destruct (col d "rsi") as [rsi|]; [|done]. simpl.
  by destruct (find_pivot_lows rsi pivot_lookback pivot_lookback).
Qed.

(** X5. A divergence is never reported near either end of the series:
    every index that the pipeline of [get_preprocessed_data] returns for
    a frame has more than [pivot_lookback] bars of the oscillator before
    it and at least [pivot_lookback] after it. *)
Theorem divergences_away_from_the_ends (data : ref) (st : state)
    (d : DataFrame) (rsi : list float) (divergences : list Z) (idx : Z) :
  heap st !! data = Some d →
  columns d !! "rsi" = Some rsi →
  (pipeline data st).1 = Ok divergences →
  idx ∈ divergences →
  pivot_lookback < idx < len rsi - pivot_lookback.
Proof.
  intros Hd Hrsi Hpipe. rewrite pipeline_run, Hd in Hpipe.
  by apply (pipeline_of_in_range d).
Qed.

Lemma divergences_away_from_the_ends_witness :
  pivot_lookback < 11 < len engineered_rsi - pivot_lookback.
Proof.
  apply (divergences_away_from_the_ends 0%nat
           (set_heap [engineered] (initial_state 739008)) engineered
           engineered_rsi [11] 11).
  - reflexivity.
  - reflexivity.
  - vm_compute. reflexivity.
  - set_solver.
Defined.


(** ** More on [download_data] and [add_rsi] *)

Section download.
Context {world : Externals}.

Lemma download_data_body_run symbol st :
  download_data_body symbol st
  = let st0 := after_daily_reset st in
    match _cache_store st0 !! symbol with
    | Some data => (Ok data, st0)
    | None =>
        match history symbol (clock st) with
        | Err e => (Err e, log_fetch symbol st0)
        | Ok d =>
            let st1 := after_fetch symbol d st0 in
            if df_empty d then (Err (ValueError "No data found"), st1)
            else (Ok (length (heap st0)),
                  set_cache (<[symbol := length (heap st0)]> (_cache_store st1))
                            (_cache_date st1) st1)
        end
    end.
Proof.
  unfold download_data_body, after_daily_reset, mbind, M_bind, gets. simpl.
  assert (Hclock : clock (if bool_decide (_cache_date st ≠ Some (clock st))
                          then set_cache ∅ (Some (clock st)) st else st)
                   = clock st) by (by case_bool_decide).
  case_bool_decide; simpl.
  - rewrite lookup_empty. unfold fetch, mbind, M_bind, gets, modify, lift, alloc.
    simpl. destruct (history symbol (clock st)) as [d|e]; [|done]. simpl.
    unfold deref. simpl. rewrite list_lookup_middle by done.
    by destruct (df_empty d).
  - destruct (_cache_store st !! symbol) as [data|]; [done|].
    unfold fetch, mbind, M_bind, gets, modify, lift, alloc.
    simpl. destruct (history symbol (clock st)) as [d|e]; [|done]. simpl.
    unfold deref. simpl. rewrite list_lookup_middle by done.
    by destruct (df_empty d).
Qed.
End download.

(** X6. The first download of a symbol (nothing memoized, nothing in
    today's store): when it succeeds, the provider was asked once, for
    this symbol and for today; the frame it handed back is not empty and
    is a new object; and the reference to it is recorded in the memo
    table and in the store, which is stamped with today's date. *)
Theorem download_data_first_call {world : Externals} (symbol : string)
    (st : state) (data : ref) :
  download_data_memo st !! symbol = None →
  _cache_date st ≠ Some (clock st) ∨ _cache_store st !! symbol = None →
  (download_data symbol st).1 = Ok data →
  let st' := (download_data symbol st).2 in
  ∃ d, history symbol (clock st) = Ok d
       ∧ df_empty d = false
       ∧ data = length (heap st)
       ∧ heap st' = heap st ++ [d]
       ∧ fetch_log st' = fetch_log st ++ [symbol]
       ∧ download_data_memo st' = <[symbol := data]> (download_data_memo st)
       ∧ _cache_store st' !! symbol = Some data
       ∧ _cache_date st' = Some (clock st).
Proof.
  intros Hmemo Hstore. unfold download_data. rewrite lru_cache_run, Hmemo.
  rewrite download_data_body_run. simpl.
  assert (Hmiss : _cache_store (after_daily_reset st) !! symbol = None).
  { unfold after_daily_reset. case_bool_decide; [apply lookup_empty|].
    by destruct Hstore. }
  assert (Hheap : heap (after_daily_reset st) = heap st)
    by (unfold after_daily_reset; by case_bool_decide).
  assert (Hlog : fetch_log (after_daily_reset st) = fetch_log st)
    by (unfold after_daily_reset; by case_bool_decide).
  assert (Hdl : download_data_memo (after_daily_reset st)
                = download_data_memo st)
    by (unfold after_daily_reset; by case_bool_decide).
  assert (Hdate : _cache_date (after_daily_reset st) = Some (clock st)).
  { unfold after_daily_reset. case_bool_decide as Hd; [done|].
    done. }
  rewrite Hmiss. destruct (history symbol (clock st)) as [d|e]; [|done].
  destruct (df_empty d) eqn:Hempty; [done|]. simpl. intros [= <-].
  exists d. rewrite Hheap, Hlog, Hdl, Hdate.
  repeat split; try done. apply lookup_insert_eq.
Qed.

Lemma download_data_first_call_witness :
  ∃ d, history (Externals := engineered_world) "AAA.NS" 739008 = Ok d
       ∧ df_empty d = false
       ∧ heap (download_data (world := engineered_world) "AAA.NS"
                 (initial_state 739008)).2 = [d].
Proof.
  destruct (download_data_first_call (world := engineered_world) "AAA.NS"
              (initial_state 739008) 0%nat)
    as (d & Hd & Hempty & _ & Hheap & _).
  - reflexivity.
  - by left.
  - vm_compute. reflexivity.
  - exists d. by repeat split.
Defined.

(** X7. A download that raises poisons no cache: both memo tables are as
    they were, neither the memo table nor the store holds an entry for
    the symbol, the frames that existed are untouched, and the exception
    is the provider's own or the [ValueError] for a frame without bars. *)
Theorem download_data_failure {world : Externals} (symbol : string)
    (st : state) (e : exn) :
  (download_data symbol st).1 = Err e →
  let st' := (download_data symbol st).2 in
  download_data_memo st' = download_data_memo st
  ∧ get_preprocessed_data_memo st' = get_preprocessed_data_memo st
  ∧ download_data_memo st' !! symbol = None
  ∧ _cache_store st' !! symbol = None
  ∧ heap st `prefix_of` heap st'
  ∧ fetch_log st' = fetch_log st ++ [symbol]
  ∧ (history symbol (clock st) = Err e
     ∨ (e = ValueError "No data found"
        ∧ ∃ d, history symbol (clock st) = Ok d ∧ df_empty d = true)).
Proof.
  unfold download_data. rewrite lru_cache_run.
  destruct (download_data_memo st !! symbol) as [r|] eqn:Hmemo; [done|].
  rewrite download_data_body_run. simpl.
  assert (Hheap : heap (after_daily_reset st) = heap st)
    by (unfold after_daily_reset; by case_bool_decide).
  assert (Hlog : fetch_log (after_daily_reset st) = fetch_log st)
    by (unfold after_daily_reset; by case_bool_decide).
  assert (Hdl : download_data_memo (after_daily_reset st)
                = download_data_memo st)
    by (unfold after_daily_reset; by case_bool_decide).
  assert (Hpre : get_preprocessed_data_memo (after_daily_reset st)
                 = get_preprocessed_data_memo st)
    by (unfold after_daily_reset; by case_bool_decide).
  destruct (_cache_store (after_daily_reset st) !! symbol) as [r|] eqn:Hstore;
    [done|].
  destruct (history symbol (clock st)) as [d|e'] eqn:Hhist.
  - destruct (df_empty d) eqn:Hempty; [|done]. simpl. intros [= <-].
    rewrite Hheap, Hlog, Hdl, Hpre.
    repeat split; try done; [by apply prefix_app_r|].
    right. split; [done|]. by exists d.
  - simpl. intros [= <-]. rewrite Hheap, Hlog, Hdl, Hpre.
    repeat split; try done. by left.
Qed.

Lemma download_data_failure_witness :
  download_data_memo
    (download_data (world := engineered_world) "NONE.NS"
       (initial_state 739008)).2 !! "NONE.NS" = None
  ∧ _cache_store
      (download_data (world := engineered_world) "NONE.NS"
         (initial_state 739008)).2 !! "NONE.NS" = None.
Proof.
  destruct (download_data_failure (world := engineered_world) "NONE.NS"
              (initial_state 739008) (ValueError "No data found"))
    as (_ & _ & Hmemo & Hstore & _).
  - vm_compute. reflexivity.
  - by split.
Defined.

(** X8. The daily reset of the store: when the body of [download_data]
    runs (nothing memoized for the symbol), the store ends up stamped
    with today's date; the entries of the other symbols are dropped when
    the store was stamped with another day (or not at all) and kept as
    they are when it was stamped with today. *)
Theorem download_data_daily_reset {world : Externals} (symbol : string)
    (st : state) :
  download_data_memo st !! symbol = None →
  let st' := (download_data symbol st).2 in
  _cache_date st' = Some (clock st)
  ∧ (_cache_date st ≠ Some (clock st) →
     ∀ t, t ≠ symbol → _cache_store st' !! t = None)
  ∧ (_cache_date st = Some (clock st) →
     ∀ t, t ≠ symbol → _cache_store st' !! t = _cache_store st !! t).
Proof.
  intros Hmemo. unfold download_data. rewrite lru_cache_run, Hmemo.
  rewrite download_data_body_run. simpl.
  assert (Hdate : _cache_date (after_daily_reset st) = Some (clock st)).
  { unfold after_daily_reset. case_bool_decide as Hd; [done|].
    done. }
  assert (Hreset : _cache_date st ≠ Some (clock st) →
                   _cache_store (after_daily_reset st) = ∅).
  { intros Hd. unfold after_daily_reset. by rewrite bool_decide_true. }
  assert (Hkeep : _cache_date st = Some (clock st) →
                  _cache_store (after_daily_reset st) = _cache_store st).
  { intros Hd. unfold after_daily_reset. by rewrite bool_decide_false by auto. }
  destruct (_cache_store (after_daily_reset st) !! symbol) as [r|] eqn:Hstore.
  { simpl. split; [done|]. split.
    - intros Hd t _. by rewrite (Hreset Hd), lookup_empty.
    - intros Hd t _. by rewrite (Hkeep Hd). }
  destruct (history symbol (clock st)) as [d|e].
  - destruct (df_empty d); simpl.
    + split; [done|]. split.
      * intros Hd t _. by rewrite (Hreset Hd), lookup_empty.
      * intros Hd t _. by rewrite (Hkeep Hd).
    + split; [done|]. split.
      * intros Hd t Ht. rewrite lookup_insert_ne by done.
        by rewrite (Hreset Hd), lookup_empty.
      * intros Hd t Ht. rewrite lookup_insert_ne by done.
        by rewrite (Hkeep Hd).
  - simpl. split; [done|]. split.
    + intros Hd t _. by rewrite (Hreset Hd), lookup_empty.
    + intros Hd t _. by rewrite (Hkeep Hd).
Qed.

Lemma download_data_daily_reset_witness :
  let st := set_clock 739009
              (download_data (world := engineered_world) "AAA.NS"
                 (initial_state 739008)).2 in
  let st' := (download_data (world := engineered_world) "BBB.NS" st).2 in
  _cache_store st !! "AAA.NS" = Some 0%nat
  ∧ _cache_date st' = Some 739009
  ∧ _cache_store st' !! "AAA.NS" = None.
Proof.
  intros st st'.
  destruct (download_data_daily_reset (world := engineered_world) "BBB.NS" st)
    as (Hdate & Hreset & _).
  - reflexivity.
  - split; [reflexivity|]. split; [exact Hdate|].
    apply Hreset; [vm_compute; discriminate|discriminate].
Defined.

(** X9. [add_rsi] returns the reference it was given; a call that raises
    leaves the state as it was; and writing the oscillator column a
    second time, with the same period, changes no frame. *)
Theorem add_rsi_idempotent {world : Externals} (data : ref) (period : Z)
    (st : state) :
  let first := add_rsi data period st in
  let second := add_rsi data period first.2 in
  (∀ r, first.1 = Ok r → r = data)
  ∧ (∀ e, first.1 = Err e → first.2 = st)
  ∧ second.1 = first.1
  ∧ heap second.2 = heap first.2.
Proof.
  simpl. rewrite (add_rsi_run data period st).
  destruct (heap st !! data) as [d|] eqn:Hd.
  2:{ simpl. rewrite add_rsi_run, Hd. by repeat split. }
  destruct (columns d !! "Close") as [close|] eqn:Hclose.
  2:{ simpl. rewrite add_rsi_run, Hd, Hclose. by repeat split. }
  simpl. split; [by intros r [= <-]|]. split; [done|].
  rewrite add_rsi_run. simpl.
  rewrite list_lookup_insert_eq by (by eapply lookup_lt_Some). simpl.
  rewrite lookup_insert_ne by done. rewrite Hclose. simpl. split; [done|].
  rewrite list_insert_insert_eq. f_equal. unfold set_col. simpl. f_equal.
  apply insert_insert_eq.
Qed.


(** ** The scan for today *)

(** X10. The trading-day test and the gate of the scan for today:
    [is_nse_trading_day] says yes exactly for a Monday-to-Friday date
    outside the holiday table (today's date when none is given) and
    leaves the state alone; on a closed day [scan_for_today_divergences]
    returns the empty list without calling the provider or touching any
    cache. *)
Theorem trading_day_gate {world : Externals} (st : state) :
  (∀ check_date,
     is_nse_trading_day check_date st
     = (Ok (bool_decide (weekday (default (clock st) check_date) < 5
                         ∧ default (clock st) check_date ∉ NSE_HOLIDAYS)),
        st))
  ∧ (5 ≤ weekday (clock st) ∨ clock st ∈ NSE_HOLIDAYS →
     scan_for_today_divergences st = (Ok [], st)).
Proof.
  assert (Hday : ∀ check_date,
    is_nse_trading_day check_date st
    = (Ok (bool_decide (weekday (default (clock st) check_date) < 5
                        ∧ default (clock st) check_date ∉ NSE_HOLIDAYS)),
       st)).
  { intros check_date. unfold is_nse_trading_day, mbind, M_bind.
    destruct check_date as [d|]; simpl.
    - destruct (Z.leb_spec 5 (weekday d)).
      + by rewrite bool_decide_false by lia.
      + unfold mret, M_ret. f_equal. f_equal. apply bool_decide_ext.
        intuition lia.
    - destruct (Z.leb_spec 5 (weekday (clock st))).
      + by rewrite bool_decide_false by lia.
      + unfold mret, M_ret. f_equal. f_equal. apply bool_decide_ext.
        intuition lia. }
  split; [exact Hday|]. intros Hclosed.
  unfold scan_for_today_divergences, mbind, M_bind. rewrite (Hday None).
  simpl. rewrite bool_decide_false; [done|].
  intros [? ?]. destruct Hclosed; [lia|done].
Qed.

Lemma trading_day_gate_witness :
  scan_for_today_divergences (world := engineered_world) (initial_state 739010)
  = (Ok [], initial_state 739010).
Proof.
  apply (trading_day_gate (world := engineered_world) (initial_state 739010)).
  left. vm_compute. discriminate.
Defined.

Section today.
Context {world : Externals}.

Lemma scan_symbol_today_run symbol l st :
  scan_symbol_today symbol (l, st)
  = match download_data symbol st with
    | (Err _, st1) => (Ok tt, (l, st1))
    | (Ok data, st1) =>
        match add_rsi data rsi_period st1 with
        | (Err _, st2) => (Ok tt, (l, st2))
        | (Ok data', st2) =>
            match pipeline data' st2 with
            | (Err _, st3) => (Ok tt, (l, st3))
            | (Ok divergences, st3) =>
                (Ok tt,
                 (for_M divergences (report_today data' symbol) (l, st3)).2)
            end
        end
    end.
Proof.
  unfold scan_symbol_today, try_except, mbind, M_bind, globally. simpl.
  destruct (download_data symbol st) as [[data|e] st1]; [|done].
  destruct (add_rsi data rsi_period st1) as [[data'|e] st2]; [|done].
  destruct (pipeline data' st2) as [[divergences|e] st3]; [|done].
  change (λ idx : Z, _) with (report_today data' symbol).
  by destruct (for_M divergences (report_today data' symbol) (l, st3))
    as [[[]|e] x].
Qed.

Lemma for_M_noop {Σ A} (l : list A) (body : A → M Σ unit) (s : Σ) :
  (∀ x, x ∈ l → body x s = (Ok tt, s)) → for_M l body s = (Ok tt, s).
Proof.
  induction l as [|x l IH]; intros Hb; [done|].
  rewrite for_M_cons_run, Hb by left. apply IH. intros; apply Hb; by right.
Qed.

Lemma report_today_skips data symbol idx l st d :
  heap st !! data = Some d →
  no_later_bars (clock st) d →
  0 ≤ idx < df_len d - pivot_lookback →
  report_today data symbol idx (l, st) = (Ok tt, (l, st)).
Proof.
  intros Hd [_ Hlast] Hidx.
  unfold report_today, mbind, M_bind, globally, deref, lift. rewrite Hd.
  destruct (getitem_in_range (index d) idx) as (date & Hdate & ->).
  { unfold df_len, pivot_lookback in Hidx. lia. }
  unfold is_today, mbind, M_bind, gets. simpl.
  case_bool_decide as Htoday; [|done]. exfalso. subst date.
  apply Hlast in Hdate. lia.
Qed.

Lemma no_later_bars_add_rsi today d values :
  no_later_bars today d → no_later_bars today (set_col d "rsi" values).
Proof.
  intros [Hlen Hlast]. split; [|done]. intros close Hclose.
  simpl in Hclose. rewrite lookup_insert_ne in Hclose by done.
  by apply Hlen.
Qed.

Lemma download_data_no_later_bars symbol st :
  (∀ d, history symbol (clock st) = Ok d → no_later_bars (clock st) d) →
  heap_no_later_bars st →
  heap_no_later_bars (download_data symbol st).2.
Proof.
  intros Hworld Hheap. unfold download_data. rewrite lru_cache_run.
  destruct (download_data_memo st !! symbol) as [r|]; [done|].
  rewrite download_data_body_run. simpl.
  assert (Hreset : heap_no_later_bars (after_daily_reset st)).
  { unfold after_daily_reset. by case_bool_decide. }
  assert (Hclock : clock (after_daily_reset st) = clock st).
  { unfold after_daily_reset. by case_bool_decide. }
  destruct (_cache_store (after_daily_reset st) !! symbol) as [r|]; [done|].
  destruct (history symbol (clock st)) as [d|e]; [|done].
  assert (Hnew : heap_no_later_bars (after_fetch symbol d (after_daily_reset st))).
  { intros r d' Hd'. unfold after_fetch in Hd'. simpl in *.
    apply lookup_app_Some in Hd' as [Hd'|[_ Hd']].
    - rewrite Hclock. rewrite <-Hclock. by apply (Hreset r).
    - apply list_lookup_singleton_Some in Hd' as [_ <-].
      rewrite Hclock. by apply Hworld. }
  by destruct (df_empty d).
Qed.

Lemma add_rsi_no_later_bars data st :
  heap_no_later_bars st →
  heap_no_later_bars (add_rsi data rsi_period st).2.
Proof.
  intros Hheap. rewrite add_rsi_run.
  destruct (heap st !! data) as [d|] eqn:Hd; [|done].
  destruct (columns d !! "Close") as [close|]; [|done].
  intros r d' Hd'. simpl in *.
  destruct (decide (r = data)) as [->|Hne].
  - rewrite list_lookup_insert_eq in Hd' by (by eapply lookup_lt_Some).
    injection Hd' as <-. by apply no_later_bars_add_rsi, (Hheap data).
  - rewrite list_lookup_insert_ne in Hd' by done. by apply (Hheap r).
Qed.

Lemma scan_symbol_today_reports_nothing symbol l st :
  (∀ d, history symbol (clock st) = Ok d → no_later_bars (clock st) d) →
  heap_no_later_bars st →
  ∃ st', scan_symbol_today symbol (l, st) = (Ok tt, (l, st'))
         ∧ heap_no_later_bars st' ∧ clock st' = clock st.
Proof.
  intros Hworld Hheap. rewrite scan_symbol_today_run.
  pose proof (download_data_no_later_bars symbol st Hworld Hheap) as H1.
  destruct (download_data_evolves symbol st) as [[Hc1 _ _ _] _].
  destruct (download_data symbol st) as [[data|e] st1]; simpl in *;
    [|by exists st1].
  pose proof (add_rsi_no_later_bars data st1 H1) as H2.
  destruct (add_rsi_evolves data st1) as [[Hc2 _ _ _] _].
  pose proof (add_rsi_run data rsi_period st1) as Hrun.
  destruct (add_rsi data rsi_period st1) as [[data'|e] st2]; simpl in *;
    [|exists st2; split; [done|split; [done|congruence]]].
  rewrite pipeline_run.
  destruct (heap st2 !! data') as [d2|] eqn:Hd2;
    [|exists st2; split; [done|split; [done|congruence]]].
  destruct (pipeline_of d2) as [divergences|e] eqn:Hpipe;
    [|exists st2; split; [done|split; [done|congruence]]].
  exists st2. split; [|split; [done|congruence]].
  rewrite for_M_noop; [done|]. intros idx Hidx.
  apply (report_today_skips _ _ _ _ _ d2); [done|by apply (H2 data')|].
  (* the oscillator column of the frame is the one [add_rsi] just wrote *)
  destruct (heap st1 !! data) as [d1|] eqn:Hd1; [|done].
  destruct (columns d1 !! "Close") as [close|] eqn:Hclose; [|done].
  injection Hrun as -> ->. simpl in Hd2.
  rewrite list_lookup_insert_eq in Hd2 by (by eapply lookup_lt_Some).
  injection Hd2 as <-.
  pose proof (pipeline_of_in_range _ (rsi_indicator close rsi_period)
                divergences idx (lookup_insert_eq _ _ _) Hpipe Hidx) as Hrange.
  destruct (H1 data d1 Hd1) as [Hlen _]. specialize (Hlen close Hclose).
  unfold pivot_lookback in *. unfold df_len in *. simpl. lia.
Qed.
End today.

(** X11. The scan for today reports a divergence only on a bar that has
    at least [pivot_lookback] later bars.  So when no frame has such a
    bar dated today (as when every frame ends today or earlier), the
    scan returns the empty list, whatever divergences the frames hold. *)
Theorem scan_for_today_needs_later_bars {world : Externals} (st : state) :
  (∀ symbol d, history symbol (clock st) = Ok d → no_later_bars (clock st) d) →
  heap_no_later_bars st →
  (scan_for_today_divergences st).1 = Ok [].
Proof.
  intros Hworld Hheap.
  unfold scan_for_today_divergences, mbind, M_bind.
  pose proof (is_nse_trading_day_unchanged None st) as Hsame.
  destruct (is_nse_trading_day_never_raises None st) as [open Hopen].
  destruct (is_nse_trading_day None st) as [r st0]. simpl in *. subst r st0.
  destruct open; simpl; [|done]. unfold with_results.
  assert (Hloop : ∀ symbols st1,
    clock st1 = clock st → heap_no_later_bars st1 →
    ∃ st2, for_M symbols scan_symbol_today ([], st1) = (Ok tt, ([], st2))).
  { induction symbols as [|symbol symbols IH]; intros st1 Hclock H1.
    - by exists st1.
    - rewrite for_M_cons_run.
      destruct (scan_symbol_today_reports_nothing symbol [] st1)
        as (st2 & -> & H2 & Hclock2); [|done|].
      + intros d. rewrite Hclock. apply Hworld.
      + apply IH; [congruence|done]. }
  destruct (Hloop UNIQUE_COMPANIES st eq_refl Hheap) as [st2 Hst2].
  revert Hst2. unfold mbind, M_bind.
  destruct (for_M UNIQUE_COMPANIES scan_symbol_today ([], st))
    as [[[]|e] [l st']]; [|done]. by intros [= -> ->].
Qed.

Lemma scan_for_today_needs_later_bars_witness :
  (scan_for_today_divergences (world := engineered_world)
     (initial_state 739013)).1 = Ok [].
Proof.
  apply (scan_for_today_needs_later_bars (world := engineered_world)).
  - intros symbol d. simpl. case_bool_decide; intros [= <-].
    + split; [intros close Hclose; vm_compute in Hclose; discriminate|].
      intros idx Hidx. change (@nil day !! idx = Some 739013) in Hidx.
      by rewrite lookup_nil in Hidx.
    + split; [intros close _; vm_compute; discriminate|].
      intros idx Hidx. change (seqZ 738997 17 !! idx = Some 739013) in Hidx.
      apply lookup_seqZ in Hidx. change (12 ≤ Z.of_nat idx). lia.
  - intros r d Hd. change (@nil DataFrame !! r = Some d) in Hd.
    by rewrite lookup_nil in Hd.
Defined.


(** * What the scans return *)

Section items.
Context {B : Type} (I : state → Prop) (P : B → Prop).

Lemma adds_nothing {A} (r : res A) l st :
  I st →
  I (r, (l, st)).2.2 ∧ ∃ l', (r, (l, st)).2.1 = l ++ l' ∧ Forall P l'.
Proof. intros HI. split; [done|]. exists []. by rewrite app_nil_r. Qed.

Lemma adds_bind {A C} (m : M (list B * state) A)
    (f : A → M (list B * state) C) :
  adds I P m → (∀ a, adds I P (f a)) → adds I P (m ≫= f).
Proof.
  intros Hm Hf l st HI. unfold mbind, M_bind.
  destruct (Hm l st HI) as (HI1 & l1 & Hl1 & HP1).
  destruct (m (l, st)) as [[a|e] [acc1 st1]]; simpl in *; subst acc1.
  - destruct (Hf a (l ++ l1) st1 HI1) as (HI2 & l2 & Hl2 & HP2).
    split; [done|]. exists (l1 ++ l2).
    split; [by rewrite Hl2, app_assoc|by apply Forall_app].
  - split; [done|]. by exists l1.
Qed.


Lemma adds_for_M {A} (l : list A) (body : A → M (list B * state) unit) :
  (∀ x, x ∈ l → adds I P (body x)) → adds I P (for_M l body).
Proof.
  induction l as [|x l IH]; intros Hbody.
  - intros acc st HI. by apply adds_nothing.
  - simpl. apply adds_bind; [apply Hbody; by left|].
    intros _. apply IH. intros y Hy. apply Hbody. by right.
Qed.
End items.

Lemma adds_mono {B A} (I : state → Prop) (P Q : B → Prop)
    (m : M (list B * state) A) :
  (∀ x, P x → Q x) → adds I P m → adds I Q m.
Proof.
  intros HPQ Hm l st HI. destruct (Hm l st HI) as (HI1 & l1 & Hl1 & HP1).
  split; [done|]. exists l1. split; [done|]. by eapply Forall_impl.
Qed.


Section records.
Context {world : Externals}.

Lemma today_result_item d symbol idx index_date item :
  today_result d symbol idx index_date = Ok item →
  today_item symbol index_date item.
Proof.
  unfold today_result. intros H.
  repeat match type of H with
         | (?m ≫= _) = Ok _ => destruct m; simpl in H; [|done]
         end.
  injection H as <-. split; [reflexivity|]. split; [reflexivity|].
  rewrite !dom_insert_L, dom_empty_L. reflexivity.
Qed.




Lemma report_today_run data symbol idx l st :
  report_today data symbol idx (l, st)
  = match heap st !! data with
    | None => (Err Dangling, (l, st))
    | Some d =>
        match getitem (index d) idx with
        | Err e => (Err e, (l, st))
        | Ok index_date =>
            if bool_decide (index_date = clock st)
            then match today_result d symbol idx index_date with
                 | Ok result => (Ok tt, (l ++ [result], st))
                 | Err e => (Err e, (l, st))
                 end
            else (Ok tt, (l, st))
        end
    end.
Proof.
  unfold report_today, mbind, M_bind, globally, deref, lift, is_today, gets.
  destruct (heap st !! data) as [d|]; [|done].
  destruct (getitem (index d) idx) as [index_date|e]; [|done]. simpl.
  case_bool_decide; [|done].
  by destruct (today_result d symbol idx index_date).
Qed.


Lemma report_today_adds data symbol today idx :
  adds (λ st, clock st = today) (today_item symbol today)
       (report_today data symbol idx).
Proof.
  intros l st Hclock. rewrite report_today_run.
  destruct (heap st !! data) as [d|]; [|by apply (adds_nothing (λ st, clock st = today))].
  destruct (getitem (index d) idx) as [index_date|e]; [|by apply (adds_nothing (λ st, clock st = today))].
  case_bool_decide as Htoday; [|by apply (adds_nothing (λ st, clock st = today))].
  destruct (today_result d symbol idx index_date) as [result|e] eqn:Hresult;
    [|by apply (adds_nothing (λ st, clock st = today))].
  split; [done|]. exists [result]. split; [done|].
  apply Forall_singleton. apply today_result_item in Hresult. congruence.
Qed.


Lemma scan_symbol_today_adds symbol today :
  adds (λ st, clock st = today) (today_item symbol today)
       (scan_symbol_today symbol).
Proof.
  intros l st Hclock. rewrite scan_symbol_today_run.
  destruct (download_data_evolves symbol st) as [[Hc1 _ _ _] _].
  destruct (download_data symbol st) as [[data|e] st1]; simpl in Hc1;
    [|apply (adds_nothing (λ st, clock st = today)); congruence].
  destruct (add_rsi_evolves data st1) as [[Hc2 _ _ _] _].
  destruct (add_rsi data rsi_period st1) as [[data'|e] st2]; simpl in Hc2;
    [|apply (adds_nothing (λ st, clock st = today)); congruence].
  pose proof (pipeline_unchanged data' st2) as Hsame.
  destruct (pipeline data' st2) as [[divergences|e] st3]; simpl in Hsame;
    subst st3; [|apply (adds_nothing (λ st, clock st = today)); congruence].
  apply (adds_for_M (λ st, clock st = today) (today_item symbol today));
    [|congruence].
  intros idx _. apply report_today_adds.
Qed.


End records.

(** X12. Every item that [scan_for_today_divergences] returns is a
    dictionary with the seven keys of [today_result], is dated today, and
    carries a symbol of [UNIQUE_COMPANIES]. *)
Theorem scan_for_today_items {world : Externals} (st : state)
    (rs : list (gmap string pyval)) :
  (scan_for_today_divergences st).1 = Ok rs →
  Forall (λ item, ∃ symbol, symbol ∈ UNIQUE_COMPANIES
                            ∧ today_item symbol (clock st) item) rs.
Proof.
  unfold scan_for_today_divergences, mbind, M_bind.
  pose proof (is_nse_trading_day_unchanged None st) as Hsame.
  destruct (is_nse_trading_day None st) as [[open|e] st0]; simpl in *;
    [|done]. subst st0.
  destruct open; simpl; [|intros [= <-]; constructor].
  unfold with_results, mbind, M_bind.
  destruct (adds_for_M (λ st', clock st' = clock st)
              (λ item, ∃ symbol, symbol ∈ UNIQUE_COMPANIES
                                 ∧ today_item symbol (clock st) item)
              UNIQUE_COMPANIES scan_symbol_today) with ([] : list (gmap string pyval)) st
    as (_ & l' & Hl' & HP); [|done|].
  { intros symbol Hsymbol.
    eapply adds_mono; [|apply scan_symbol_today_adds]. intros item Hitem.
    by exists symbol. }
  destruct (for_M UNIQUE_COMPANIES scan_symbol_today ([], st))
    as [[[]|e] [l st']]; simpl in *; [|done].
  intros [= <-]. by subst l.
Qed.

Lemma scan_for_today_items_witness :
  let rs := match (scan_for_today_divergences (world := engineered_world)
                     (initial_state 739008)).1 with
            | Ok rs => rs
            | Err _ => []
            end in
  length rs = 2%nat
  ∧ Forall (λ item, ∃ symbol,
              symbol ∈ UNIQUE_COMPANIES (Externals := engineered_world)
              ∧ today_item symbol 739008 item) rs.
Proof.
  intros rs. split; [vm_compute; reflexivity|].
  apply (scan_for_today_items (world := engineered_world)
           (initial_state 739008) rs).
  vm_compute. reflexivity.
Defined.




(** * The memoized pipeline result *)

Lemma get_preprocessed_data_miss {world : Externals} symbol data divergences st :
  get_preprocessed_data_memo st !! symbol = None →
  (get_preprocessed_data symbol st).1 = Ok (data, divergences) →
  (download_data symbol st).1 = Ok data
  ∧ ∃ d, heap (get_preprocessed_data symbol st).2 !! data = Some d
         ∧ rsi_current d ∧ pipeline_of d = Ok divergences.
Proof.
  intros Hmiss. unfold get_preprocessed_data.
  rewrite lru_cache_run, Hmiss.
  unfold get_preprocessed_data_body, mbind, M_bind.
  destruct (download_data symbol st) as [[data0|e] st0]; [|done].
  rewrite add_rsi_run.
  destruct (heap st0 !! data0) as [d0|] eqn:Hd0; [|done].
  destruct (columns d0 !! "Close") as [close|] eqn:Hclose; [|done].
  rewrite pipeline_run. simpl.
  rewrite list_lookup_insert_eq by (by eapply lookup_lt_Some).
  destruct (pipeline_of _) as [divergences0|e] eqn:Hpipe; [|done].
  simpl. intros [= <- <-]. split; [done|].
  eexists. split; [by apply list_lookup_insert_eq, (lookup_lt_Some _ _ d0)|].
  split; [|done]. exists close. simpl. split.
  - by rewrite lookup_insert_ne.
  - by rewrite lookup_insert_eq.
Qed.

(** X14. A result that [get_preprocessed_data] computes (on a miss) is
    the reference that [download_data] returned together with the
    divergences of the frame behind it, whose oscillator column is that
    of its closes.  Through any further run of calls within the day the
    frame stays as it is, so running the pipeline afresh on it gives
    the divergences that were memoized. *)
Theorem preprocessed_result_stays_current {world : Externals} (st : state)
    (symbol : string) (data : ref) (divergences : list Z)
    (calls : list call) :
  get_preprocessed_data_memo st !! symbol = None →
  (get_preprocessed_data symbol st).1 = Ok (data, divergences) →
  let st1 := (get_preprocessed_data symbol st).2 in
  let st2 := run_calls calls st1 in
  (download_data symbol st).1 = Ok data
  ∧ (∃ d, heap st1 !! data = Some d ∧ heap st2 !! data = Some d
          ∧ rsi_current d)
  ∧ pipeline data st2 = (Ok divergences, st2).
Proof.
  intros Hmiss Hok st1 st2.
  destruct (get_preprocessed_data_miss symbol data divergences st Hmiss Hok)
    as (Hdata & d & Hd & Hcurrent & Hpipe). fold st1 in Hd.
  destruct (run_calls_evolves calls st1) as [[_ Hheap _ _] _].
  fold st2 in Hheap.
  destruct (Hheap data d Hd) as (d' & Hd' & _ & _ & Hsame).
  rewrite (Hsame Hcurrent) in Hd'.
  split; [done|]. split; [by exists d|].
  by rewrite pipeline_run, Hd', Hpipe.
Qed.

Lemma preprocessed_result_stays_current_witness :
  let st1 := (get_preprocessed_data (world := engineered_world) "AAA.NS"
                (initial_state 739008)).2 in
  let st2 := run_calls (world := engineered_world)
               [Call_scan_for_today_divergences;
                Call_get_bullish_divergence_results 739008 None true;
                Call_add_rsi 0%nat] st1 in
  (pipeline 0%nat st2).1 = Ok [11].
Proof.
  intros st1 st2.
  destruct (preprocessed_result_stays_current (world := engineered_world)
              (initial_state 739008) "AAA.NS" 0%nat [11]
              [Call_scan_for_today_divergences;
               Call_get_bullish_divergence_results 739008 None true;
               Call_add_rsi 0%nat])
    as (_ & _ & Hpipe); [reflexivity|vm_compute; reflexivity|].
  fold st1 st2 in Hpipe. by rewrite Hpipe.
Defined.
